(** * btgym.research.model_based.datafeed.bivariate

    A shallow embedding of the module that feeds synthetic bivariate price
    lines to the trading environment:

    - [bivariate_generator_fn] and [bivariate_random_state_fn], wrappers
      around the generative model class [BivariateTSModel];
    - [SimpleBivariateGenerator] with its methods [generate_data] and
      [sample];
    - [BivariateDataSet], whose constructor configures the combined
      train / test iterator.

    The numeric library, the dataframe constructor, the model class and the
    base classes of the framework live outside the module.  Their behaviour
    enters the development through section variables; everything the module
    itself does is written out as Rocq functions that compute. *)

From Stdlib Require Import String List ZArith Bool Lia.
Import ListNotations.
Local Open Scope string_scope.
Local Open Scope Z_scope.

Set Implicit Arguments.
Set Warnings "-register-all".

(** ** Exceptions and results *)

(** The exception classes the module can meet.  [ExternalError] stands for
    whatever an external callable raises on its own account. *)
Inductive exn : Type :=
| AssertionError
| KeyError (key : string)
| TypeError
| ValueError
| IndexError
| ExternalError (code : nat).

Inductive result (A : Type) : Type :=
| Ok (a : A)
| Raise (e : exn).
Arguments Ok {A} a.
Arguments Raise {A} e.

Definition rbind {A B} (r : result A) (k : A -> result B) : result B :=
  match r with
  | Ok a => k a
  | Raise e => Raise e
  end.

(** ** Python dictionaries

    A [dict] keeps its keys in insertion order, and that order is visible
    (the list of asset names is read off the keys), so a dictionary is an
    association list.  A well formed dictionary has no repeated key. *)
Module Dict.

Definition t (V : Type) : Type := list (string * V).

Definition keys {V} (d : t V) : list string := map fst d.

Fixpoint get {V} (k : string) (d : t V) : option V :=
  match d with
  | [] => None
  | (k', v) :: d' => if String.eqb k k' then Some v else get k d'
  end.

Definition mem {V} (k : string) (d : t V) : bool :=
  match get k d with Some _ => true | None => false end.

(** [d[k] = v]: an existing key keeps its position. *)
Fixpoint set {V} (k : string) (v : V) (d : t V) : t V :=
  match d with
  | [] => [(k, v)]
  | (k', v') :: d' =>
      if String.eqb k k' then (k, v) :: d' else (k', v') :: set k v d'
  end.

(** [d.update(e)] *)
Definition update {V} (d e : t V) : t V :=
  fold_left (fun acc kv => set (fst kv) (snd kv) acc) e d.

(** [d[k]], raising [KeyError] on a missing key. *)
Definition getitem {V} (k : string) (d : t V) : result V :=
  match get k d with
  | Some v => Ok v
  | None => Raise (KeyError k)
  end.

(** [{k: f(k, v) for k, v in d.items()}] for a total [f] *)
Definition map_items {V W} (f : string -> V -> W) (d : t V) : t W :=
  map (fun kv => (fst kv, f (fst kv) (snd kv))) d.

(** [{k: f(k) for k in ks}] where evaluating [f k] may raise; a key met
    twice keeps its first position and takes the later value. *)
Fixpoint comprehension {V} (f : string -> result V) (ks : list string)
         (acc : t V) : result (t V) :=
  match ks with
  | [] => Ok acc
  | k :: ks' => rbind (f k) (fun v => comprehension f ks' (set k v acc))
  end.

End Dict.

(** ** External data types

    The records below belong to code outside the module: the state tuple of
    the time-series model, pandas dataframes and the per-asset data streams
    of the framework.  Only the attributes the module reads or writes are
    kept.  [float] is the type of numpy scalars. *)

(** [btgym.research.model_based.model.bivariate]: the path
    [state.s.process.observation.{mu, log_theta, log_sigma}]. *)
Module Model.

Record OUEstimatorState (float : Type) : Type := {
  mu : float;
  log_theta : float;
  log_sigma : float;
}.

Record ProcessState (float : Type) : Type := {
  observation : OUEstimatorState float;
}.

Record TimeSeriesModelState (float : Type) : Type := {
  process : ProcessState float;
}.

Record BivariateTSModelState (float : Type) : Type := {
  p : TimeSeriesModelState float;
  s : TimeSeriesModelState float;
}.

End Model.

(** A time index is a sequence of timestamps. *)
Definition Index : Type := list Z.

(** [pandas]: a dataframe is an index and named columns, in column order. *)
Module pd.

Record DataFrame (float : Type) : Type := {
  columns : Dict.t (list float);
  index : Index;
}.

(** With an index given, pandas repeats an array of one element over the
    index. *)
Definition maybe_repeat {float} (arr : list float) (index : Index)
  : list float :=
  match arr with
  | [v] => repeat v (length index)
  | _ => arr
  end.

Definition broadcast {float} (data : Dict.t (list float)) (index : Index)
  : Dict.t (list float) :=
  Dict.map_items (fun _ arr => maybe_repeat arr index) data.

(** [pd.DataFrame(data=..., index=...)] for a dict of one-dimensional
    arrays: an array of one element is repeated over the index; every
    array must then be as long as the index, else pandas raises
    [ValueError]. *)
Definition DataFrame_init {float} (data : Dict.t (list float))
           (index : Index) : result (DataFrame float) :=
  let data := broadcast data index in
  if forallb (fun kv => Nat.eqb (length (snd kv)) (length index)) data
  then Ok {| columns := data; index := index |}
  else Raise ValueError.

End pd.

(** One asset's data stream, as held in [self.data[asset_name]]. *)
Module Stream.

Record t (float Value : Type) : Type := {
  episode_num_records : Z;
  train_index : Index;
  test_index : Index;
  filename : Value;
  data : option (pd.DataFrame float);
}.

Definition set_data {float Value} (st : t float Value)
           (d : option (pd.DataFrame float)) : t float Value :=
  {| episode_num_records := episode_num_records st;
     train_index := train_index st;
     test_index := test_index st;
     filename := filename st;
     data := d |}.

End Stream.

(** Classes the module passes around by reference. *)
Inductive ClassRef : Type :=
| cls_BTgymDataset2
| cls_BTgymMultiData
| cls_SimpleBivariateGenerator
| cls_other (qualname : string).

(** Three-dimensional arrays, outermost axis first. *)
Definition ndarray3 (float : Type) : Type := list (list (list float)).

(** [x.shape == (a, b, c)] *)
Definition has_shape {float} (x : ndarray3 float) (a b c : nat) : Prop :=
  length x = a /\
  Forall (fun plane => length plane = b /\
                       Forall (fun row => length row = c) plane) x.

(** [x[i, j, :]], raising [IndexError] when [i] or [j] is out of bounds. *)
Definition row_of {float} (x : ndarray3 float) (i j : nat)
  : result (list float) :=
  match nth_error x i with
  | None => Raise IndexError
  | Some plane =>
      match nth_error plane j with
      | None => Raise IndexError
      | Some row => Ok row
      end
  end.

Section Bivariate.

(** *** The numeric library *)
Variable float : Type.
(** [np.exp] on a scalar *)
Variable np_exp : float -> float.
(** [np.around(v, decimals=d)] on a scalar *)
Variable around : float -> Z -> float.
(** [f != z] for a float [f] and an int [z], and [bool(f)] *)
Variable float_ne_int : float -> Z -> bool.
Variable float_truth : float -> bool.
(** state outside the module: the global random generator and whatever
    else the external classes keep *)
Variable Env : Type.

(** [np.around] works elementwise. *)
Definition np_around (x : ndarray3 float) (decimals : Z) : ndarray3 float :=
  map (map (map (fun v => around v decimals))) x.

(** *** Python values *)
Inductive Value : Type :=
| VNone
| VBool (b : bool)
| VInt (z : Z)
| VFloat (f : float)
| VStr (str : string)
| VClass (c : ClassRef)
| VState (st : Model.BivariateTSModelState float)
| VList (l : list Value)
| VDict (d : Dict.t Value).

(** [isinstance(v, dict)] *)
Definition isinstance_dict (v : Value) : bool :=
  match v with VDict _ => true | _ => false end.

(** [v is not None] *)
Definition is_not_None (v : Value) : bool :=
  match v with VNone => false | _ => true end.

(** [bool(v)]: the truth value tested by [if v:].  A model state is a
    non-empty named tuple and a class is an object, both true. *)
Definition truth (v : Value) : bool :=
  match v with
  | VNone => false
  | VBool b => b
  | VInt z => negb (z =? 0)
  | VFloat f => float_truth f
  | VStr str => negb (String.eqb str "")
  | VClass _ => true
  | VState _ => true
  | VList l => match l with [] => false | _ => true end
  | VDict d => match d with [] => false | _ => true end
  end.

(** [v != z] for an int [z].  [bool] is a subclass of [int]; values of
    the remaining types are never equal to an int. *)
Definition ne_int (v : Value) (z : Z) : bool :=
  match v with
  | VInt z' => negb (z' =? z)
  | VBool b => negb (Z.b2z b =? z)
  | VFloat f => float_ne_int f z
  | _ => true
  end.

(** An argument used as an int. *)
Definition as_int (v : Value) : option Z :=
  match v with
  | VInt z => Some z
  | VBool b => Some (Z.b2z b)
  | _ => None
  end.

(** Unpacking [v] with a double star in a call: the unpacked object
    must be a mapping. *)
Definition unpack (v : Value) : result (Dict.t Value) :=
  match v with
  | VDict d => Ok d
  | _ => Raise TypeError
  end.

(** A call with explicit keywords followed by an unpacked mapping [d]: a
    keyword given twice is a [TypeError]. *)
Definition keywords (explicit d : Dict.t Value) : result (Dict.t Value) :=
  if existsb (fun k => Dict.mem k d) (Dict.keys explicit)
  then Raise TypeError
  else Ok (explicit ++ d)%list.

(** [copy.deepcopy] of a value is an equal value. *)
Definition deepcopy (v : Dict.t Value) : Dict.t Value := v.

(** *** Effects

    Calls into the model class and the framework draw from the global
    random generator; they run on the external state [Env], and they are
    taken not to mutate the objects handed to them.  The generator object
    also writes to its own logger [self.log]; a method that logs runs on a
    [World]. *)
Record LogRecord : Type := {
  levelname : string;
  msg : string;
  args : list Value;
}.

Record World : Type := {
  env : Env;
  log : list LogRecord;
}.

Definition M (S A : Type) : Type := S -> result (A * S).

Definition ret {S A} (a : A) : M S A := fun w => Ok (a, w).

Definition bind {S A B} (m : M S A) (k : A -> M S B) : M S B :=
  fun w =>
    match m w with
    | Ok (a, w') => k a w'
    | Raise e => Raise e
    end.

Definition lift {S A} (r : result A) : M S A :=
  fun w =>
    match r with
    | Ok a => Ok (a, w)
    | Raise e => Raise e
    end.

Definition raise {S A} (e : exn) : M S A := fun _ => Raise e.

(** A computation on the external state, run inside a method. *)
Definition extern {A} (m : M Env A) : M World A :=
  fun w =>
    match m (env w) with
    | Ok (a, e) => Ok (a, {| env := e; log := log w |})
    | Raise e => Raise e
    end.

(** [self.log.warning(...)]: the record keeps the format string and the
    values formatted into it. *)
Definition log_warning (fmt : string) (a : list Value) : M World unit :=
  fun w =>
    Ok (tt, {| env := env w;
               log := (log w ++ [{| levelname := "WARNING";
                                    msg := fmt; args := a |}])%list |}).

Notation "x <- m ;; k" := (bind m (fun x => k))
  (at level 61, m at next level, right associativity).
Notation "' pat <- m ;; k" := (bind m (fun x => match x with pat => k end))
  (at level 61, pat pattern, m at next level, right associativity).

(** [assert cond] *)
Definition assert {S} (cond : bool) : M S unit :=
  if cond then ret tt else raise AssertionError.

(** *** The model class [BivariateTSModel] *)

Let BivariateTSModelState : Type := Model.BivariateTSModelState float.

(** the class attribute [BivariateTSModel.u_recon] *)
Variable Recon : Type.
Variable u_recon : Recon.

(** [BivariateTSModel.generate_bivariate_trajectory_fn(batch_size, size,
    state, reconstruct, u_recon)]: the realisations of the two latent
    processes and, as [reconstruct] is set, the reconstructed series. *)
Variable generate_bivariate_trajectory_fn :
  Z -> Z -> BivariateTSModelState -> bool -> Recon ->
  M Env (ndarray3 float * ndarray3 float).

(** [BivariateTSModel.get_random_state( *args, **kwargs)] *)
Variable get_random_state :
  list Value -> Dict.t Value -> M Env BivariateTSModelState.

(** *** Module level functions *)

(** [keep_decimals] is [None] when the caller leaves it out; [kwargs]
    collects the keywords the function does not name. *)
Definition bivariate_generator_fn
           (num_points : Z) (state : BivariateTSModelState)
           (keep_decimals : option Z) (kwargs : Dict.t Value)
  : M Env (ndarray3 float) :=
  let keep_decimals :=
    match keep_decimals with Some d => d | None => 6 end in
  ' (_, x) <- generate_bivariate_trajectory_fn
                1 num_points state true u_recon ;;
  ret (np_around x keep_decimals).

Definition bivariate_random_state_fn
           (args : list Value) (kwargs : Dict.t Value) : M Env Value :=
  state <- get_random_state args kwargs ;;
  let observation := Model.observation (Model.process (Model.s state)) in
  ret (VDict [
    ("state", VState state);
    ("ou_mu", VFloat (Model.mu observation));
    ("ou_lambda", VFloat (np_exp (Model.log_theta observation)));
    ("ou_sigma", VFloat (np_exp (Model.log_sigma observation)));
    ("x0", VFloat (Model.mu observation))
  ]).

(** *** Callables held in attributes

    [generator_fn] is called with keywords only and returns the array of
    generated data; [generator_parameters_fn] is called with keywords only
    and returns the parameters object.  An attribute may also hold a value
    that is no function; calling it is a [TypeError]. *)
Definition GenFn : Type := Dict.t Value -> M Env (ndarray3 float).
Definition ParamFn : Type := Dict.t Value -> M Env Value.

Inductive Callable (F : Type) : Type :=
| Fn (f : F)
| NotCallable (v : Value).
Arguments NotCallable {F} v.

Definition call {A} (c : Callable (Dict.t Value -> M Env A))
           (kw : Dict.t Value) : M Env A :=
  match c with
  | Fn f => f kw
  | NotCallable _ => raise TypeError
  end.

(** Keyword call of [bivariate_generator_fn]: [num_points] and [state]
    are required.  The model class takes an int, a state tuple and an int;
    other values are reported as [TypeError]. *)
Definition bivariate_generator_fn_kw : GenFn := fun kw =>
  match Dict.get "num_points" kw, Dict.get "state" kw with
  | Some n, Some st =>
      let kwargs :=
        filter (fun kv => negb (existsb (String.eqb (fst kv))
                            ["num_points"; "state"; "keep_decimals"])) kw in
      match as_int n, st, Dict.get "keep_decimals" kw with
      | Some n, VState st, None =>
          bivariate_generator_fn n st None kwargs
      | Some n, VState st, Some d =>
          match as_int d with
          | Some d => bivariate_generator_fn n st (Some d) kwargs
          | None => raise TypeError
          end
      | _, _, _ => raise TypeError
      end
  | _, _ => raise TypeError
  end.

(** Keyword call of [bivariate_random_state_fn]. *)
Definition bivariate_random_state_fn_kw : ParamFn := fun kw =>
  bivariate_random_state_fn [] kw.

(** *** The base class [BasePairDataGenerator]

    The attributes of the base class that the module reads or writes.  The
    logger [self.log] writes to the log of the [World]. *)
Record BasePairDataGenerator : Type := {
  data_names : list string;
  name : string;
  data_class_ref : Value;
  nested_kwargs : Dict.t Value;
  a1_name : string;
  a2_name : string;
  data : Dict.t (Stream.t float Value);
  names : list string;
  metadata : Dict.t Value;
  filename : Dict.t Value;
  sample_num : Z;
  get_new_sample : bool;
}.

(** [BasePairDataGenerator.__init__(data_names, process1_config,
    process2_config, name, **kwargs)] *)
Variable BasePairDataGenerator_init :
  list string -> Value -> Value -> string -> Dict.t Value ->
  M Env BasePairDataGenerator.

(** *** [SimpleBivariateGenerator] *)
Record SimpleBivariateGenerator : Type := {
  super : BasePairDataGenerator;
  generator_fn : Callable GenFn;
  generator_parameters_fn : Callable ParamFn;
  generator_parameters_config : Value;
  columns_map : Dict.t string;
}.

(** Attribute assignments [obj.attr = v]. *)
Definition with_super (self : SimpleBivariateGenerator)
           (b : BasePairDataGenerator) : SimpleBivariateGenerator :=
  {| super := b;
     generator_fn := generator_fn self;
     generator_parameters_fn := generator_parameters_fn self;
     generator_parameters_config := generator_parameters_config self;
     columns_map := columns_map self |}.

Definition set_names (self : SimpleBivariateGenerator) (v : list string) :=
  let b := super self in
  with_super self
    {| data_names := data_names b; name := name b;
       data_class_ref := data_class_ref b; nested_kwargs := nested_kwargs b;
       a1_name := a1_name b; a2_name := a2_name b; data := data b;
       names := v;
       metadata := metadata b; filename := filename b;
       sample_num := sample_num b; get_new_sample := get_new_sample b |}.

Definition set_metadata (self : SimpleBivariateGenerator) (v : Dict.t Value) :=
  let b := super self in
  with_super self
    {| data_names := data_names b; name := name b;
       data_class_ref := data_class_ref b; nested_kwargs := nested_kwargs b;
       a1_name := a1_name b; a2_name := a2_name b; data := data b;
       names := names b;
       metadata := v;
       filename := filename b;
       sample_num := sample_num b; get_new_sample := get_new_sample b |}.

Definition set_filename (self : SimpleBivariateGenerator) (v : Dict.t Value) :=
  let b := super self in
  with_super self
    {| data_names := data_names b; name := name b;
       data_class_ref := data_class_ref b; nested_kwargs := nested_kwargs b;
       a1_name := a1_name b; a2_name := a2_name b; data := data b;
       names := names b; metadata := metadata b;
       filename := v;
       sample_num := sample_num b; get_new_sample := get_new_sample b |}.

Definition set_sample_num (self : SimpleBivariateGenerator) (v : Z) :=
  let b := super self in
  with_super self
    {| data_names := data_names b; name := name b;
       data_class_ref := data_class_ref b; nested_kwargs := nested_kwargs b;
       a1_name := a1_name b; a2_name := a2_name b; data := data b;
       names := names b; metadata := metadata b; filename := filename b;
       sample_num := v;
       get_new_sample := get_new_sample b |}.

Definition set_data (self : SimpleBivariateGenerator)
           (v : Dict.t (Stream.t float Value)) :=
  let b := super self in
  with_super self
    {| data_names := data_names b; name := name b;
       data_class_ref := data_class_ref b; nested_kwargs := nested_kwargs b;
       a1_name := a1_name b; a2_name := a2_name b;
       data := v;
       names := names b; metadata := metadata b; filename := filename b;
       sample_num := sample_num b; get_new_sample := get_new_sample b |}.

(** [self.data[key].data = df]: the stream must exist. *)
Definition set_stream_data (self : SimpleBivariateGenerator) (key : string)
           (df : option (pd.DataFrame float))
  : result SimpleBivariateGenerator :=
  rbind (Dict.getitem key (data (super self))) (fun stream =>
    Ok (set_data self
          (Dict.set key (Stream.set_data stream df) (data (super self))))).

(** [SimpleBivariateGenerator.__init__]: [generator_fn],
    [generator_parameters_fn] and [name] are [None] when the caller leaves
    them to their defaults.  The call of the base constructor names
    [process1_config], [process2_config] and [name] itself, so one of them
    among [kwargs] is a keyword given twice. *)
Definition SimpleBivariateGenerator_init
           (data_names : list string)
           (generator_parameters_config : Value)
           (generator_fn : option (Callable GenFn))
           (generator_parameters_fn : option (Callable ParamFn))
           (name : option string)
           (kwargs : Dict.t Value)
  : M Env SimpleBivariateGenerator :=
  let generator_fn :=
    match generator_fn with
    | Some f => f
    | None => Fn bivariate_generator_fn_kw
    end in
  let generator_parameters_fn :=
    match generator_parameters_fn with
    | Some f => f
    | None => Fn bivariate_random_state_fn_kw
    end in
  let name :=
    match name with Some n => n | None => "BivariateGenerator" end in
  _ <- lift (keywords [("process1_config", VNone);
                       ("process2_config", VNone);
                       ("name", VStr name)] kwargs) ;;
  b <- BasePairDataGenerator_init data_names VNone VNone name kwargs ;;
  ret {| super := b;
         generator_fn := generator_fn;
         generator_parameters_fn := generator_parameters_fn;
         generator_parameters_config := generator_parameters_config;
         columns_map := [
           ("open", "mean");
           ("high", "maximum");
           ("low", "minimum");
           ("close", "last");
           ("bid", "minimum");
           ("ask", "maximum");
           ("mid", "mean")
         ] |}.

(** The dict comprehension
    [{name: p_dict[self.columns_map[name]] for name in self.names}] *)
Definition map_columns (self : SimpleBivariateGenerator)
           (p_dict : Dict.t (list float)) : result (Dict.t (list float)) :=
  Dict.comprehension
    (fun name =>
       rbind (Dict.getitem name (columns_map self)) (fun aggregate =>
         Dict.getitem aggregate p_dict))
    (names (super self)) [].

(** [sample_type] may be any value: [sample] passes on what it found in
    [self.metadata]. *)
Definition generate_data (self : SimpleBivariateGenerator)
           (generator_params : Value) (sample_type : Value)
  : M Env (pd.DataFrame float * pd.DataFrame float) :=
  (* Get data shaped [1, 2, num_points] and map to OHLC pattern: *)
  a1 <- lift (Dict.getitem (a1_name (super self)) (data (super self))) ;;
  params <- lift (unpack generator_params) ;;
  kw <- lift (keywords
                [("num_points", VInt (Stream.episode_num_records a1))]
                params) ;;
  data <- call (generator_fn self) kw ;;
  (* No fancy OHLC modelling here: *)
  row0 <- lift (row_of data 0 0) ;;
  let p1_dict := [
    ("mean", row0);
    ("maximum", row0);
    ("minimum", row0);
    ("last", row0)
  ] in
  row1 <- lift (row_of data 0 1) ;;
  let p2_dict := [
    ("mean", row1);
    ("maximum", row1);
    ("minimum", row1);
    ("last", row1)
  ] in
  (* Make dataframes: *)
  let index :=
    if truth sample_type
    then Stream.test_index a1
    else Stream.train_index a1 in
  (* Map dictionary of data to dataframe columns: *)
  data1 <- lift (map_columns self p1_dict) ;;
  df1 <- lift (pd.DataFrame_init data1 index) ;;
  data2 <- lift (map_columns self p2_dict) ;;
  df2 <- lift (pd.DataFrame_init data2 index) ;;
  ret (df1, df2).

(** The keywords [sample] names itself when it builds the new instance. *)
Definition sample_keywords : list string :=
  ["data_names"; "generator_parameters_config"; "data_class_ref"; "name";
   "_top_level"].

(** [sample] returns the new instance; the second component is [self]
    after the call.  A caller that leaves [sample_type] out passes 0, one
    that leaves [broadcast_message] out passes [VNone]. *)
Definition sample (self : SimpleBivariateGenerator)
           (sample_type : Z) (broadcast_message : Value)
           (kwargs : Dict.t Value)
  : M World (SimpleBivariateGenerator * SimpleBivariateGenerator) :=
  type <- lift (Dict.getitem "type" (metadata (super self))) ;;
  sample_type <-
    (if is_not_None type then
       if ne_int type sample_type then
         _ <- log_warning
                "Attempt to sample type {} given current sample type {}, overriden."
                [VInt sample_type; type] ;;
         ret type
       else ret (VInt sample_type)
     else ret (VInt sample_type)) ;;
  (* Prepare empty instance of multi_stream data: *)
  let nested := nested_kwargs (super self) in
  _ <- (if existsb (fun k => Dict.mem k nested) sample_keywords
        then raise TypeError else ret tt) ;;
  sample <- extern (SimpleBivariateGenerator_init
              (data_names (super self))
              (generator_parameters_config self)
              (option_map NotCallable (Dict.get "generator_fn" nested))
              (option_map NotCallable
                          (Dict.get "generator_parameters_fn" nested))
              (Some ("sub_" ++ name (super self)))
              ([("data_class_ref", data_class_ref (super self));
                ("_top_level", VBool false)]
               ++ filter (fun kv =>
                            negb (existsb (String.eqb (fst kv))
                                    ["generator_fn";
                                     "generator_parameters_fn"]))
                         nested)%list) ;;
  let sample := set_names sample (names (super self)) in
  ' (data1, data2, metadata) <-
    (if get_new_sample (super self) then
       (* get parameters: *)
       config <- lift (unpack (generator_parameters_config self)) ;;
       params <- extern (call (generator_parameters_fn self) config) ;;
       ' (data1, data2) <- extern (generate_data self params sample_type) ;;
       ret (Some data1, Some data2, [("generator", params)])
     else
       ret (None, None, [])) ;;
  a1 <- lift (Dict.getitem (a1_name (super self)) (data (super self))) ;;
  let metadata :=
    Dict.update metadata [
      ("type", sample_type);
      ("sample_num", VInt (sample_num (super self)));
      ("parent_sample_type", type);
      ("parent_sample_num", VInt (sample_num (super self)));
      ("first_row", VInt 0);
      ("last_row", VInt (Stream.episode_num_records a1))
    ] in
  let sample := set_metadata sample (deepcopy metadata) in
  (* Populate sample with data: *)
  sample <- lift (set_stream_data sample (a1_name (super self)) data1) ;;
  sample <- lift (set_stream_data sample (a2_name (super self)) data2) ;;
  let sample :=
    set_filename sample
      (Dict.map_items (fun _ stream => Stream.filename stream)
                      (data (super self))) in
  let self := set_sample_num self (sample_num (super self) + 1) in
  ret (sample, self).

(** *** [BivariateDataSet] *)

(** The object built by [BaseCombinedDataSet.__init__], which takes the
    keywords [train_data_config], [test_data_config], [train_class_ref],
    [test_class_ref], [name] and further keywords. *)
Variable BaseCombinedDataSet : Type.
Variable BaseCombinedDataSet_init :
  Dict.t Value -> M Env BaseCombinedDataSet.

(** [BivariateDataSet.__init__]: the two optional durations are [VNone]
    when left out, [name] is [None] when left to its default.  The [match]
    names the dictionary that the first [assert] has found
    [assets_filenames] to be.  The list comprehensions bind a [name] of
    their own, which in Python 3 leaves the parameter [name] as it was. *)
Definition BivariateDataSet_init
           (assets_filenames : Value) (model_params : Value)
           (train_episode_duration test_episode_duration : Value)
           (name : option string) (kwargs : Dict.t Value)
  : M Env BaseCombinedDataSet :=
  let name :=
    match name with Some n => n | None => "BivariateDataSet" end in
  _ <- assert (isinstance_dict assets_filenames) ;;
  match assets_filenames with
  | VDict assets =>
      let data_names := Dict.keys assets in
      _ <- assert (Z.of_nat (length data_names) =? 2) ;;
      _ <- assert (isinstance_dict assets_filenames) ;;
      let data_names := Dict.keys assets in
      _ <- assert (Z.of_nat (length data_names) =? 2) ;;
      let train_data_config := [
        ("data_names", VList (map VStr data_names));
        ("generator_parameters_config", model_params);
        ("episode_duration", train_episode_duration)
      ] in
      let test_data_config := [
        ("data_class_ref", VClass cls_BTgymDataset2);
        ("data_config",
         VDict (Dict.map_items
                  (fun asset_name file_name =>
                     VDict [("filename", file_name)])
                  assets));
        ("episode_duration", test_episode_duration)
      ] in
      kw <- lift (keywords [
                    ("train_data_config", VDict train_data_config);
                    ("test_data_config", VDict test_data_config);
                    ("train_class_ref", VClass cls_SimpleBivariateGenerator);
                    ("test_class_ref", VClass cls_BTgymMultiData);
                    ("name", VStr name)
                  ] kwargs) ;;
      BaseCombinedDataSet_init kw
  | _ => raise AssertionError
  end.

(** ** Vocabulary of the properties *)

(** [x[i, j, k]] *)
Definition item (x : ndarray3 float) (i j k : nat) : option float :=
  match nth_error x i with
  | None => None
  | Some plane =>
      match nth_error plane j with
      | None => None
      | Some row => nth_error row k
      end
  end.

(** The four aggregates of one price line, all the same array. *)
Definition aggregates (row : list float) : Dict.t (list float) :=
  [("mean", row); ("maximum", row); ("minimum", row); ("last", row)].

(** The sample type [sample] goes on with: the type recorded in
    [self.metadata] when there is one and it differs from the one asked
    for. *)
Definition effective_type (type : Value) (sample_type : Z) : Value :=
  if is_not_None type then
    if ne_int type sample_type then type else VInt sample_type
  else VInt sample_type.

(** The record logged when the requested type is overridden. *)
Definition override_warning (type : Value) (sample_type : Z) : LogRecord :=
  {| levelname := "WARNING";
     msg := "Attempt to sample type {} given current sample type {}, overriden.";
     args := [VInt sample_type; type] |}.

(** The arguments [sample] builds the new instance with. *)
Definition sample_instance (self : SimpleBivariateGenerator)
  : M Env SimpleBivariateGenerator :=
  let nested := nested_kwargs (super self) in
  SimpleBivariateGenerator_init
    (data_names (super self))
    (generator_parameters_config self)
    (option_map NotCallable (Dict.get "generator_fn" nested))
    (option_map NotCallable (Dict.get "generator_parameters_fn" nested))
    (Some ("sub_" ++ name (super self)))
    ([("data_class_ref", data_class_ref (super self));
      ("_top_level", VBool false)]
     ++ filter (fun kv =>
                  negb (existsb (String.eqb (fst kv))
                          ["generator_fn"; "generator_parameters_fn"]))
               nested)%list.

(** The entries [sample] writes into the metadata of the new instance. *)
Definition sample_metadata (self : SimpleBivariateGenerator)
           (type sample_type : Value) (last_row : Z) : Dict.t Value :=
  [("type", sample_type);
   ("sample_num", VInt (sample_num (super self)));
   ("parent_sample_type", type);
   ("parent_sample_num", VInt (sample_num (super self)));
   ("first_row", VInt 0);
   ("last_row", VInt last_row)].

(** What it means for a call of [sample] that started in [w] and returned
    [smp] in [w'] to have drawn parameters and wrapped the generated data:
    - a new instance was built by the constructor;
    - [generator_parameters_fn] was called with the keywords of
      [generator_parameters_config], right after the constructor;
    - [generate_data] was called with the parameters it returned;
    - the stream of the second asset of [smp] holds the second dataframe
      and, the two asset names being different, the stream of the first
      asset holds the first;
    - the parameters are recorded under ['generator'] in the metadata. *)
Definition draws_and_wraps (self : SimpleBivariateGenerator)
           (w : World) (smp : SimpleBivariateGenerator) (w' : World) : Prop :=
  exists smp0 e1 config params e2 sample_type df1 df2,
    sample_instance self (env w) = Ok (smp0, e1) /\
    generator_fn smp = generator_fn smp0 /\
    generator_parameters_fn smp = generator_parameters_fn smp0 /\
    generator_parameters_config smp = generator_parameters_config smp0 /\
    columns_map smp = columns_map smp0 /\
    generator_parameters_config self = VDict config /\
    call (generator_parameters_fn self) config e1 = Ok (params, e2) /\
    generate_data self params sample_type e2 = Ok ((df1, df2), env w') /\
    (exists stream,
        Dict.get (a2_name (super self)) (data (super smp)) = Some stream /\
        Stream.data stream = Some df2) /\
    (a1_name (super self) <> a2_name (super self) ->
     exists stream,
       Dict.get (a1_name (super self)) (data (super smp)) = Some stream /\
       Stream.data stream = Some df1) /\
    Dict.get "generator" (metadata (super smp)) = Some params.

(** ** Properties *)

(** *** Inversion of successful runs *)

Lemma rbind_Ok {A B} (r : result A) (k : A -> result B) (b : B) :
  rbind r k = Ok b -> exists a, r = Ok a /\ k a = Ok b.
Proof using Type.
  destruct r as [a|e]; simpl; intros H; [eauto | discriminate].
Qed.

Lemma bind_Ok {S A B} (m : M S A) (k : A -> M S B) (w : S) (r : B * S) :
  bind m k w = Ok r -> exists a w1, m w = Ok (a, w1) /\ k a w1 = Ok r.
Proof using Type.
  unfold bind. destruct (m w) as [[a w1]|e]; intros H; [eauto | discriminate].
Qed.

Lemma lift_Ok {S A} (r : result A) (w w' : S) (a : A) :
  lift r w = Ok (a, w') -> r = Ok a /\ w' = w.
Proof using Type.
  unfold lift. destruct r; intros H; inversion H; auto.
Qed.

Lemma ret_Ok {S A} (a a' : A) (w w' : S) :
  ret a w = Ok (a', w') -> a' = a /\ w' = w.
Proof using Type.
  unfold ret. intros H; inversion H; auto.
Qed.

Lemma extern_Ok {A} (m : M Env A) (w w' : World) (a : A) :
  extern m w = Ok (a, w') ->
  m (env w) = Ok (a, env w') /\ log w' = log w.
Proof using Type.
  unfold extern. destruct (m (env w)) as [[a0 e]|e]; intros H; inversion H.
  auto.
Qed.

Lemma assert_Ok {S} (c : bool) (w w' : S) (u : unit) :
  assert c w = Ok (u, w') -> c = true /\ w' = w.
Proof using Type.
  unfold assert. destruct c; simpl; intros H; inversion H; auto.
Qed.

(** [run H as a w Ha] peels the leading step off a successful monadic run
    [H]: the step returned [a] in state [w] by [Ha].  [run_lift] is for a
    step that does not touch the state, [run_extern] for an external step
    inside a method. *)
Tactic Notation "run" hyp(H) "as" ident(a) ident(w) ident(Ha) :=
  apply bind_Ok in H; destruct H as (a & w & Ha & H).

Tactic Notation "run_lift" hyp(H) "as" ident(a) ident(Ha) :=
  let w := fresh "w" in
  apply bind_Ok in H; destruct H as (a & w & Ha & H);
  apply lift_Ok in Ha; destruct Ha as (Ha & ->).

Tactic Notation "run_extern" hyp(H) "as" ident(a) ident(w) ident(Ha)
       ident(Hlog) :=
  apply bind_Ok in H; destruct H as (a & w & Ha & H);
  apply extern_Ok in Ha; destruct Ha as (Ha & Hlog).

(** *** Arrays *)

Lemma np_around_item (x : ndarray3 float) (d : Z) (i j k : nat) :
  item (np_around x d) i j k = option_map (fun v => around v d) (item x i j k).
Proof using Type.
  unfold item, np_around.
  rewrite nth_error_map.
  destruct (nth_error x i) as [plane|]; simpl; [|reflexivity].
  rewrite nth_error_map.
  destruct (nth_error plane j) as [row|]; simpl; [|reflexivity].
  apply nth_error_map.
Qed.

Lemma np_around_shape (x : ndarray3 float) (d : Z) (a b c : nat) :
  has_shape x a b c -> has_shape (np_around x d) a b c.
Proof using Type.
  unfold has_shape, np_around. intros [Hlen Hall]. split.
  - now rewrite length_map.
  - apply Forall_map. eapply Forall_impl; [|exact Hall].
    intros plane [Hb Hrows]. split.
    + now rewrite length_map.
    + apply Forall_map. eapply Forall_impl; [|exact Hrows].
      intros row Hc. now rewrite length_map.
Qed.

(** A [1, 2, n] array is two rows of [n] points in one plane. *)
Lemma has_shape_1_2 (x : ndarray3 float) (n : nat) :
  has_shape x 1 2 n ->
  exists row0 row1,
    x = [[row0; row1]] /\ length row0 = n /\ length row1 = n.
Proof using Type.
  intros [Hlen Hall].
  destruct x as [|plane [|? ?]]; try discriminate.
  inversion Hall as [|? ? [Hb Hrows] _]; subst.
  destruct plane as [|row0 [|row1 [|? ?]]]; try discriminate.
  inversion Hrows as [|? ? H0 Hrest]; subst.
  inversion Hrest as [|? ? H1 _]; subst.
  eauto.
Qed.

(** *** [bivariate_generator_fn] *)

(** C7.  Whatever trajectory the model class produces for one batch of
    [num_points] points, [bivariate_generator_fn] returns it rounded
    elementwise to [keep_decimals] places, 6 when [keep_decimals] is left
    out; the result has the shape of the trajectory, in particular
    [1, 2, n] when the trajectory has it; the external state moves as the
    model class moved it.  When the model class raises, so does the
    wrapper. *)
Theorem bivariate_generator_fn_rounds
        (num_points : Z) (state : BivariateTSModelState)
        (keep_decimals : option Z) (kwargs : Dict.t Value) (e : Env) :
  let decimals := match keep_decimals with Some d => d | None => 6 end in
  match generate_bivariate_trajectory_fn 1 num_points state true u_recon e with
  | Ok ((_, x), e') =>
      exists y,
        bivariate_generator_fn num_points state keep_decimals kwargs e
        = Ok (y, e') /\
        (forall i j k,
            item y i j k = option_map (fun v => around v decimals)
                                      (item x i j k)) /\
        (forall a b c, has_shape x a b c -> has_shape y a b c) /\
        (forall n, has_shape x 1 2 n -> has_shape y 1 2 n)
  | Raise err =>
      bivariate_generator_fn num_points state keep_decimals kwargs e
      = Raise err
  end.
Proof using Type.
  intros decimals. unfold bivariate_generator_fn, bind.
  destruct (generate_bivariate_trajectory_fn 1 num_points state true u_recon e)
    as [[[latent x] e']|err]; [|reflexivity].
  exists (np_around x decimals).
  split; [reflexivity|]. split; [|split].
  - intros i j k. apply np_around_item.
  - intros a b c. apply np_around_shape.
  - intros n. apply np_around_shape.
Qed.

(** Called by keyword with [num_points] and [state] alone, as
    [generate_data] does on the parameters drawn by
    [bivariate_random_state_fn], the function rounds to 6 places. *)
Lemma bivariate_generator_fn_kw_default
      (num_points : Z) (state : BivariateTSModelState)
      (rest : Dict.t Value) (e : Env) :
  Dict.get "num_points" rest = None ->
  Dict.get "state" rest = None ->
  Dict.get "keep_decimals" rest = None ->
  exists kwargs,
    bivariate_generator_fn_kw
      (("num_points", VInt num_points) :: ("state", VState state) :: rest) e
    = bivariate_generator_fn num_points state None kwargs e.
Proof using Type.
  intros Hn Hs Hk. unfold bivariate_generator_fn_kw. simpl.
  rewrite Hk. eexists. reflexivity.
Qed.

(** *** [bivariate_random_state_fn] *)

(** C6.  [bivariate_random_state_fn] passes its arguments on to
    [BivariateTSModel.get_random_state] and returns a dictionary of exactly
    five entries: ['state'] is the sampled state, ['ou_mu'] and ['x0'] are
    [state.s.process.observation.mu], ['ou_lambda'] is the exponential of
    [log_theta] and ['ou_sigma'] the exponential of [log_sigma] of the same
    observation.  When sampling raises, so does the function. *)
Theorem bivariate_random_state_fn_fields
        (args : list Value) (kwargs : Dict.t Value) (e : Env) :
  match get_random_state args kwargs e with
  | Ok (state, e') =>
      let observation := Model.observation (Model.process (Model.s state)) in
      exists d,
        bivariate_random_state_fn args kwargs e = Ok (VDict d, e') /\
        Dict.keys d = ["state"; "ou_mu"; "ou_lambda"; "ou_sigma"; "x0"] /\
        Dict.get "state" d = Some (VState state) /\
        Dict.get "ou_mu" d = Some (VFloat (Model.mu observation)) /\
        Dict.get "x0" d = Some (VFloat (Model.mu observation)) /\
        Dict.get "ou_lambda" d
        = Some (VFloat (np_exp (Model.log_theta observation))) /\
        Dict.get "ou_sigma" d
        = Some (VFloat (np_exp (Model.log_sigma observation)))
  | Raise err => bivariate_random_state_fn args kwargs e = Raise err
  end.
Proof using Type.
  unfold bivariate_random_state_fn, bind.
  destruct (get_random_state args kwargs e) as [[state e']|err];
    [|reflexivity].
  simpl. eexists. split; [reflexivity|].
  repeat split.
Qed.

(** *** Dictionaries *)

Lemma get_set_same {V} (k : string) (v : V) (d : Dict.t V) :
  Dict.get k (Dict.set k v d) = Some v.
Proof using Type.
  induction d as [|[k' v'] d IH]; simpl.
  - now rewrite String.eqb_refl.
  - destruct (String.eqb k k') eqn:E; simpl; rewrite ?String.eqb_refl, ?E; auto.
Qed.

Lemma get_set_other {V} (k k' : string) (v : V) (d : Dict.t V) :
  k <> k' -> Dict.get k' (Dict.set k v d) = Dict.get k' d.
Proof using Type.
  intros Hne. induction d as [|[k0 v0] d IH]; simpl.
  - destruct (String.eqb k' k) eqn:E; [|reflexivity].
    apply String.eqb_eq in E. congruence.
  - destruct (String.eqb k k0) eqn:E; simpl.
    + apply String.eqb_eq in E. subst k0.
      destruct (String.eqb k' k) eqn:E'; [|reflexivity].
      apply String.eqb_eq in E'. congruence.
    + destruct (String.eqb k' k0); auto.
Qed.

Lemma get_In {V} (k : string) (v : V) (d : Dict.t V) :
  Dict.get k d = Some v -> In (k, v) d.
Proof using Type.
  induction d as [|[k' v'] d IH]; simpl; [discriminate|].
  destruct (String.eqb k k') eqn:E.
  - apply String.eqb_eq in E. intros H; inversion H; subst. now left.
  - intros H. right. auto.
Qed.

Lemma get_map_items {V W} (f : string -> V -> W) (k : string)
      (d : Dict.t V) :
  Dict.get k (Dict.map_items f d) = option_map (f k) (Dict.get k d).
Proof using Type.
  induction d as [|[k' v] d IH]; simpl; [reflexivity|].
  destruct (String.eqb k k') eqn:E; [|exact IH].
  apply String.eqb_eq in E. now subst.
Qed.

Lemma keys_map_items {V W} (f : string -> V -> W) (d : Dict.t V) :
  Dict.keys (Dict.map_items f d) = Dict.keys d.
Proof using Type.
  unfold Dict.keys, Dict.map_items. rewrite map_map. reflexivity.
Qed.

Lemma mem_set {V} (k k' : string) (v : V) (d : Dict.t V) :
  Dict.mem k' (Dict.set k v d) = true <-> k' = k \/ Dict.mem k' d = true.
Proof using Type.
  unfold Dict.mem. destruct (string_dec k k') as [->|Hne].
  - rewrite get_set_same. split; auto.
  - rewrite get_set_other by assumption. split; auto.
    intros [->|H]; [congruence|assumption].
Qed.

Lemma set_Forall {V} (P : V -> Prop) (k : string) (v : V) (d : Dict.t V) :
  P v -> Forall (fun kv => P (snd kv)) d ->
  Forall (fun kv => P (snd kv)) (Dict.set k v d).
Proof using Type.
  intros Hv. induction d as [|[k' v'] d IH]; simpl; intros Hd.
  - constructor; auto.
  - inversion Hd; subst. destruct (String.eqb k k'); constructor; auto.
Qed.

(** Every value of a comprehension was produced by its body, or was there
    at the start. *)
Lemma comprehension_Forall {V} (P : V -> Prop) (f : string -> result V)
      (ks : list string) :
  (forall k v, In k ks -> f k = Ok v -> P v) ->
  forall acc d,
    Forall (fun kv => P (snd kv)) acc ->
    Dict.comprehension f ks acc = Ok d ->
    Forall (fun kv => P (snd kv)) d.
Proof using Type.
  induction ks as [|k ks IH]; simpl; intros Hf acc d Hacc H.
  - inversion H; subst; assumption.
  - apply rbind_Ok in H. destruct H as (v & Hv & H).
    eapply IH; [| |exact H].
    + intros k' v' Hin. apply Hf. now right.
    + apply set_Forall; [|assumption]. eapply Hf; [now left|exact Hv].
Qed.

(** The keys of a comprehension are the keys it ran over, and those
    there at the start. *)
Lemma comprehension_mem {V} (f : string -> result V) (ks : list string) :
  forall acc d,
    Dict.comprehension f ks acc = Ok d ->
    forall k, Dict.mem k d = true <-> Dict.mem k acc = true \/ In k ks.
Proof using Type.
  induction ks as [|k0 ks IH]; simpl; intros acc d H k.
  - inversion H; subst. split; [auto|].
    intros [Hm|[]]. exact Hm.
  - apply rbind_Ok in H. destruct H as (v & Hv & H).
    rewrite (IH _ _ H k), mem_set. split.
    + intros [[->|Hm]|Hin]; auto.
    + intros [Hm|[->|Hin]]; auto.
Qed.

(** A comprehension whose body never raises returns. *)
Lemma comprehension_total {V} (f : string -> result V) (ks : list string) :
  (forall k, In k ks -> exists v, f k = Ok v) ->
  forall acc, exists d, Dict.comprehension f ks acc = Ok d.
Proof using Type.
  induction ks as [|k ks IH]; simpl; intros Hf acc.
  - eauto.
  - destruct (Hf k) as (v & Hv); [now left|]. rewrite Hv. simpl.
    apply IH. intros k' Hin. apply Hf. now right.
Qed.

(** *** [generate_data] *)

Lemma aggregates_get (row v : list float) (k : string) :
  Dict.getitem k (aggregates row) = Ok v -> v = row.
Proof using Type.
  unfold Dict.getitem, aggregates. simpl.
  repeat match goal with
         | |- context [String.eqb ?a ?b] => destruct (String.eqb a b)
         end; intros H; inversion H; reflexivity.
Qed.

(** Every column mapped from the aggregates of [row] is [row], and the
    columns are those named in [self.names]. *)
Lemma map_columns_spec (self : SimpleBivariateGenerator)
      (row : list float) (cols : Dict.t (list float)) :
  map_columns self (aggregates row) = Ok cols ->
  Forall (fun kv => snd kv = row) cols /\
  (forall name, Dict.mem name cols = true <-> In name (names (super self))).
Proof using Type.
  unfold map_columns. intros H. split.
  - eapply (comprehension_Forall (fun v => v = row)); [| |exact H].
    + intros k v _ Hk. apply rbind_Ok in Hk. destruct Hk as (agg & _ & Hk).
      eapply aggregates_get; eauto.
    + constructor.
  - intros name. rewrite (comprehension_mem _ _ _ H name).
    unfold Dict.mem; simpl. split.
    + intros [Hf|Hin]; [discriminate|exact Hin].
    + intros Hin. right. exact Hin.
Qed.

(** An array that is as long as the index, or not of one element, is
    taken as it is. *)
Lemma maybe_repeat_id (arr : list float) (index : Index) :
  length arr <> 1%nat \/ length arr = length index ->
  pd.maybe_repeat arr index = arr.
Proof using Type.
  destruct arr as [|v [|v' arr]]; simpl; try reflexivity.
  intros [Hne|Hlen]; [congruence|]. rewrite <- Hlen. reflexivity.
Qed.

(** The columns of a dataframe built from the aggregates of [row]: each
    is [row], repeated over the index when it is a single point, and the
    columns are those named in [self.names]. *)
Lemma broadcast_columns_spec (self : SimpleBivariateGenerator)
      (row : list float) (cols : Dict.t (list float)) (index : Index) :
  map_columns self (aggregates row) = Ok cols ->
  Forall (fun kv => snd kv = pd.maybe_repeat row index)
         (pd.broadcast cols index) /\
  Dict.keys (pd.broadcast cols index) = Dict.keys cols /\
  (forall name, Dict.mem name (pd.broadcast cols index) = true
                <-> In name (names (super self))).
Proof using Type.
  intros H. destruct (map_columns_spec _ _ H) as [Hall Hkeys].
  split; [|split].
  - unfold pd.broadcast, Dict.map_items. apply Forall_map.
    eapply Forall_impl; [|exact Hall]. intros kv Hkv. simpl. now rewrite Hkv.
  - apply keys_map_items.
  - intros name. rewrite <- Hkeys. unfold Dict.mem, pd.broadcast.
    rewrite get_map_items. destruct (Dict.get name cols); simpl; tauto.
Qed.

(** What a successful run of [generate_data] went through. *)
Lemma generate_data_inv (self : SimpleBivariateGenerator)
      (generator_params sample_type : Value) (e e' : Env)
      (df1 df2 : pd.DataFrame float) :
  generate_data self generator_params sample_type e = Ok ((df1, df2), e') ->
  exists a1 params x row0 row1 cols1 cols2,
    Dict.get (a1_name (super self)) (data (super self)) = Some a1 /\
    generator_params = VDict params /\
    Dict.mem "num_points" params = false /\
    call (generator_fn self)
         (("num_points", VInt (Stream.episode_num_records a1)) :: params) e
    = Ok (x, e') /\
    row_of x 0 0 = Ok row0 /\
    row_of x 0 1 = Ok row1 /\
    map_columns self (aggregates row0) = Ok cols1 /\
    map_columns self (aggregates row1) = Ok cols2 /\
    pd.columns df1 = pd.broadcast cols1 (pd.index df1) /\
    pd.columns df2 = pd.broadcast cols2 (pd.index df1) /\
    pd.index df1 = (if truth sample_type then Stream.test_index a1
                    else Stream.train_index a1) /\
    pd.index df2 = pd.index df1.
Proof using Type.
  unfold generate_data. intros H.
  run_lift H as a1 Ha1. unfold Dict.getitem in Ha1.
  destruct (Dict.get _ _) as [a1'|] eqn:Hget; inversion Ha1; subst a1'.
  run_lift H as params Hparams.
  destruct generator_params as [| | | | | | | |d]; try discriminate.
  simpl in Hparams. inversion Hparams; subst params.
  run_lift H as kw Hkw. unfold keywords in Hkw. simpl in Hkw.
  destruct (Dict.mem "num_points" d) eqn:Hmem; simpl in Hkw;
    inversion Hkw; subst kw.
  run H as x e1 Hcall.
  run_lift H as row0 Hrow0.
  run_lift H as row1 Hrow1.
  run_lift H as cols1 Hcols1.
  run_lift H as f1 Hf1.
  run_lift H as cols2 Hcols2.
  run_lift H as f2 Hf2.
  apply ret_Ok in H. destruct H as [H ->]. inversion H; subst f1 f2.
  unfold pd.DataFrame_init in *.
  destruct (forallb _ (pd.broadcast cols1 _)); inversion Hf1; subst df1.
  destruct (forallb _ (pd.broadcast cols2 _)); inversion Hf2; subst df2.
  simpl. exists a1, d, x, row0, row1, cols1, cols2. repeat split; auto.
Qed.

Lemma DataFrame_init_Ok (cols : Dict.t (list float)) (row : list float)
      (index : Index) :
  Forall (fun kv => snd kv = row) cols ->
  length row = length index ->
  pd.DataFrame_init cols index
  = Ok {| pd.columns := pd.broadcast cols index; pd.index := index |}.
Proof using Type.
  intros Hall Hlen. unfold pd.DataFrame_init.
  replace (forallb _ (pd.broadcast cols index)) with true; [reflexivity|].
  symmetry. apply forallb_forall. intros kv Hin.
  unfold pd.broadcast, Dict.map_items in Hin. apply in_map_iff in Hin.
  destruct Hin as (kv0 & <- & Hin0).
  rewrite Forall_forall in Hall. simpl. rewrite (Hall kv0 Hin0).
  rewrite maybe_repeat_id by (right; exact Hlen). rewrite Hlen.
  apply Nat.eqb_refl.
Qed.

(** [generate_data] returns whenever the generator returns an array of
    shape [1, 2, n], every name in [self.names] is mapped to one of the four
    aggregates, and the chosen index has [n] entries. *)
Lemma generate_data_returns (self : SimpleBivariateGenerator)
      (params : Dict.t Value) (sample_type : Value) (e e' : Env)
      (a1 : Stream.t float Value) (x : ndarray3 float) (n : nat) :
  Dict.get (a1_name (super self)) (data (super self)) = Some a1 ->
  Dict.mem "num_points" params = false ->
  call (generator_fn self)
       (("num_points", VInt (Stream.episode_num_records a1)) :: params) e
  = Ok (x, e') ->
  has_shape x 1 2 n ->
  (forall name, In name (names (super self)) ->
     exists aggregate,
       Dict.get name (columns_map self) = Some aggregate /\
       In aggregate ["mean"; "maximum"; "minimum"; "last"]) ->
  length (if truth sample_type then Stream.test_index a1
          else Stream.train_index a1) = n ->
  exists df1 df2,
    generate_data self (VDict params) sample_type e = Ok ((df1, df2), e').
Proof using Type.
  intros Ha1 Hmem Hcall Hshape Hnames Hindex.
  destruct (has_shape_1_2 Hshape) as (row0 & row1 & -> & Hlen0 & Hlen1).
  assert (Hcols : forall row, exists cols,
             map_columns self (aggregates row) = Ok cols).
  { intros row. unfold map_columns. apply comprehension_total.
    intros name Hin. destruct (Hnames name Hin) as (agg & Hget & Hagg).
    unfold Dict.getitem. rewrite Hget. simpl.
    destruct Hagg as [<-|[<-|[<-|[<-|[]]]]]; simpl; eauto. }
  destruct (Hcols row0) as (cols1 & Hcols1).
  destruct (Hcols row1) as (cols2 & Hcols2).
  unfold generate_data, bind, lift, Dict.getitem.
  rewrite Ha1. simpl. unfold keywords. simpl. rewrite Hmem. simpl.
  rewrite Hcall. simpl.
  change [("mean", row0); ("maximum", row0); ("minimum", row0); ("last", row0)]
    with (aggregates row0).
  change [("mean", row1); ("maximum", row1); ("minimum", row1); ("last", row1)]
    with (aggregates row1).
  rewrite Hcols1.
  rewrite (@DataFrame_init_Ok cols1 row0);
    [|apply (map_columns_spec _ _ Hcols1)
     |etransitivity; [exact Hlen0|symmetry; exact Hindex]].
  rewrite Hcols2.
  rewrite (@DataFrame_init_Ok cols2 row1);
    [|apply (map_columns_spec _ _ Hcols2)
     |etransitivity; [exact Hlen1|symmetry; exact Hindex]].
  unfold ret. eauto.
Qed.

(** C2.  [generate_data] returns a pair of dataframes whenever the
    generator returns an array of shape [1, 2, n], every name in
    [self.names] is mapped to one of the four aggregates and the chosen
    index has [n] entries.  Whenever it returns, it has called the generator
    with [num_points] set to [episode_num_records] of the first asset's
    stream and with the given parameters, and it returns two dataframes
    with the columns named in [self.names]: every column of the first is
    built from row 0 of the generator output ([data[0, 0, :]]), every column
    of the second from row 1 ([data[0, 1, :]]).  A column is the row itself
    when the row is as long as the index or not a single point; a row of a
    single point is repeated over the index.  When the output has shape
    [1, 2, n] it consists of exactly these two rows, each of [n] points. *)
Theorem generate_data_pair (self : SimpleBivariateGenerator) :
  (forall params sample_type e e' a1 x n,
      Dict.get (a1_name (super self)) (data (super self)) = Some a1 ->
      Dict.mem "num_points" params = false ->
      call (generator_fn self)
           (("num_points", VInt (Stream.episode_num_records a1)) :: params) e
      = Ok (x, e') ->
      has_shape x 1 2 n ->
      (forall name, In name (names (super self)) ->
         exists aggregate,
           Dict.get name (columns_map self) = Some aggregate /\
           In aggregate ["mean"; "maximum"; "minimum"; "last"]) ->
      length (if truth sample_type then Stream.test_index a1
              else Stream.train_index a1) = n ->
      exists df1 df2,
        generate_data self (VDict params) sample_type e
        = Ok ((df1, df2), e')) /\
  (forall generator_params sample_type e e' df1 df2,
      generate_data self generator_params sample_type e
      = Ok ((df1, df2), e') ->
      exists a1 params x row0 row1,
        Dict.get (a1_name (super self)) (data (super self)) = Some a1 /\
        generator_params = VDict params /\
        call (generator_fn self)
             (("num_points", VInt (Stream.episode_num_records a1)) :: params)
             e
        = Ok (x, e') /\
        row_of x 0 0 = Ok row0 /\
        row_of x 0 1 = Ok row1 /\
        Forall (fun kv => snd kv = pd.maybe_repeat row0 (pd.index df1))
               (pd.columns df1) /\
        Forall (fun kv => snd kv = pd.maybe_repeat row1 (pd.index df2))
               (pd.columns df2) /\
        (length row0 <> 1%nat \/ length row0 = length (pd.index df1) ->
         Forall (fun kv => snd kv = row0) (pd.columns df1)) /\
        (length row1 <> 1%nat \/ length row1 = length (pd.index df2) ->
         Forall (fun kv => snd kv = row1) (pd.columns df2)) /\
        (forall name, Dict.mem name (pd.columns df1) = true
                      <-> In name (names (super self))) /\
        (forall name, Dict.mem name (pd.columns df2) = true
                      <-> In name (names (super self))) /\
        (forall n, has_shape x 1 2 n ->
                   x = [[row0; row1]] /\ length row0 = n /\ length row1 = n)).
Proof using Type.
  split.
  - intros params sample_type e e' a1 x n. apply generate_data_returns.
  - intros generator_params sample_type e e' df1 df2 H.
    apply generate_data_inv in H.
    destruct H as (a1 & params & x & row0 & row1 & cols1 & cols2 & Ha1 & Hp
                   & _ & Hcall & Hr0 & Hr1 & Hc1 & Hc2 & Hd1 & Hd2 & _ & Hi2).
    exists a1, params, x, row0, row1.
    destruct (broadcast_columns_spec _ _ (pd.index df1) Hc1)
      as (Hall1 & _ & Hkeys1).
    destruct (broadcast_columns_spec _ _ (pd.index df1) Hc2)
      as (Hall2 & _ & Hkeys2).
    rewrite <- Hd1 in Hall1, Hkeys1. rewrite <- Hd2, <- Hi2 in Hall2.
    rewrite <- Hd2 in Hkeys2.
    repeat (split; [assumption|]).
    split; [|split; [|split; [|split]]]; try assumption.
    + intros Hlen. rewrite <- (maybe_repeat_id _ _ Hlen). exact Hall1.
    + intros Hlen. rewrite <- (maybe_repeat_id _ _ Hlen). exact Hall2.
    + intros n Hshape.
      destruct (has_shape_1_2 Hshape) as (r0 & r1 & -> & Hl0 & Hl1).
      simpl in Hr0, Hr1. inversion Hr0; inversion Hr1; subst. auto.
Qed.


(** What a successful run of the constructor went through. *)
Lemma SimpleBivariateGenerator_init_inv
      (data_names : list string) (config : Value)
      (gen_fn : option (Callable GenFn)) (param_fn : option (Callable ParamFn))
      (name : option string) (kwargs : Dict.t Value) (e e' : Env)
      (self : SimpleBivariateGenerator) :
  SimpleBivariateGenerator_init data_names config gen_fn param_fn name
                                kwargs e = Ok (self, e') ->
  exists b,
    Dict.mem "process1_config" kwargs = false /\
    Dict.mem "process2_config" kwargs = false /\
    Dict.mem "name" kwargs = false /\
    BasePairDataGenerator_init
      data_names VNone VNone
      (match name with Some n => n | None => "BivariateGenerator" end)
      kwargs e = Ok (b, e') /\
    super self = b /\
    generator_fn self
    = match gen_fn with Some f => f | None => Fn bivariate_generator_fn_kw end /\
    generator_parameters_fn self
    = match param_fn with
      | Some f => f
      | None => Fn bivariate_random_state_fn_kw
      end /\
    generator_parameters_config self = config /\
    columns_map self
    = [("open", "mean"); ("high", "maximum"); ("low", "minimum");
       ("close", "last"); ("bid", "minimum"); ("ask", "maximum");
       ("mid", "mean")].
Proof using Type.
  unfold SimpleBivariateGenerator_init. intros H.
  run_lift H as kw Hkw. unfold keywords in Hkw. simpl in Hkw.
  destruct (Dict.mem "process1_config" kwargs); [discriminate|].
  destruct (Dict.mem "process2_config" kwargs); [discriminate|].
  destruct (Dict.mem "name" kwargs); [discriminate|]. clear Hkw.
  run H as b e1 Hb. apply ret_Ok in H. destruct H as [-> ->].
  exists b. simpl. repeat split; auto.
Qed.

(** C8.  The constructor maps ['open'] and ['mid'] to ['mean'], ['high']
    and ['ask'] to ['maximum'], ['low'] and ['bid'] to ['minimum'] and
    ['close'] to ['last'].  In each dataframe returned by [generate_data]
    any two columns hold the same series, whatever the names; so the
    ['open'], ['high'], ['low'] and ['close'] columns agree at every row. *)
Theorem columns_identical :
  (forall data_names config gen_fn param_fn name kwargs e self e',
      SimpleBivariateGenerator_init data_names config gen_fn param_fn name
                                    kwargs e = Ok (self, e') ->
      Dict.get "open" (columns_map self) = Some "mean" /\
      Dict.get "mid" (columns_map self) = Some "mean" /\
      Dict.get "high" (columns_map self) = Some "maximum" /\
      Dict.get "ask" (columns_map self) = Some "maximum" /\
      Dict.get "low" (columns_map self) = Some "minimum" /\
      Dict.get "bid" (columns_map self) = Some "minimum" /\
      Dict.get "close" (columns_map self) = Some "last") /\
  (forall self generator_params sample_type e e' df1 df2,
      generate_data self generator_params sample_type e
      = Ok ((df1, df2), e') ->
      forall df, df = df1 \/ df = df2 ->
        (forall name1 name2 col1 col2,
            Dict.get name1 (pd.columns df) = Some col1 ->
            Dict.get name2 (pd.columns df) = Some col2 ->
            col1 = col2) /\
        (forall o h l c i,
            Dict.get "open" (pd.columns df) = Some o ->
            Dict.get "high" (pd.columns df) = Some h ->
            Dict.get "low" (pd.columns df) = Some l ->
            Dict.get "close" (pd.columns df) = Some c ->
            nth_error o i = nth_error h i /\
            nth_error h i = nth_error l i /\
            nth_error l i = nth_error c i)).
Proof using Type.
  split.
  - intros dn config gf pf nm kw e self e' H.
    apply SimpleBivariateGenerator_init_inv in H.
    destruct H as (b & _ & _ & _ & _ & _ & _ & _ & _ & ->).
    repeat split.
  - intros self gp st e e' df1 df2 H df Hdf.
    apply generate_data_inv in H.
    destruct H as (a1 & params & x & row0 & row1 & cols1 & cols2 & _ & _ & _
                   & _ & _ & _ & Hc1 & Hc2 & Hd1 & Hd2 & _ & _).
    assert (Hsame : exists row,
               Forall (fun kv => snd kv = row) (pd.columns df)).
    { destruct Hdf as [->| ->];
        [exists (pd.maybe_repeat row0 (pd.index df1)); rewrite Hd1
        |exists (pd.maybe_repeat row1 (pd.index df1)); rewrite Hd2];
        eapply broadcast_columns_spec; eauto. }
    destruct Hsame as (row & Hall). rewrite Forall_forall in Hall.
    assert (Hget : forall name col,
               Dict.get name (pd.columns df) = Some col -> col = row).
    { intros name col Hg. apply get_In in Hg. exact (Hall _ Hg). }
    split.
    + intros n1 n2 c1 c2 H1 H2.
      rewrite (Hget _ _ H1), (Hget _ _ H2). reflexivity.
    + intros o h l c i Ho Hh Hl Hc.
      rewrite (Hget _ _ Ho), (Hget _ _ Hh), (Hget _ _ Hl), (Hget _ _ Hc).
      auto.
Qed.

(** *** [sample] *)

(** What a successful call of [sample] went through. *)
Lemma sample_inv (self smp self' : SimpleBivariateGenerator)
      (sample_type : Z) (broadcast_message : Value) (kwargs : Dict.t Value)
      (w w' : World) :
  sample self sample_type broadcast_message kwargs w = Ok ((smp, self'), w') ->
  exists type smp0 e1 a1 data1 data2 md0 s1 s2,
    Dict.get "type" (metadata (super self)) = Some type /\
    sample_instance self (env w) = Ok (smp0, e1) /\
    (if get_new_sample (super self) then
       exists config params e2 df1 df2,
         generator_parameters_config self = VDict config /\
         call (generator_parameters_fn self) config e1 = Ok (params, e2) /\
         generate_data self params (effective_type type sample_type) e2
         = Ok ((df1, df2), env w') /\
         data1 = Some df1 /\ data2 = Some df2 /\
         md0 = [("generator", params)]
     else
       env w' = e1 /\ data1 = None /\ data2 = None /\ md0 = []) /\
    log w' = (if is_not_None type && ne_int type sample_type
              then log w ++ [override_warning type sample_type]
              else log w)%list /\
    Dict.get (a1_name (super self)) (data (super self)) = Some a1 /\
    Dict.get (a1_name (super self)) (data (super smp0)) = Some s1 /\
    Dict.get (a2_name (super self))
             (Dict.set (a1_name (super self)) (Stream.set_data s1 data1)
                       (data (super smp0))) = Some s2 /\
    smp = set_filename
            (set_data
               (set_metadata
                  (set_names smp0 (names (super self)))
                  (Dict.update md0
                     (sample_metadata self type
                        (effective_type type sample_type)
                        (Stream.episode_num_records a1))))
               (Dict.set (a2_name (super self)) (Stream.set_data s2 data2)
                  (Dict.set (a1_name (super self)) (Stream.set_data s1 data1)
                     (data (super smp0)))))
            (Dict.map_items (fun _ stream => Stream.filename stream)
                            (data (super self))) /\
    self' = set_sample_num self (sample_num (super self) + 1).
Proof using Type.
  unfold sample. intros H.
  run_lift H as type Htype.
  unfold Dict.getitem in Htype.
  destruct (Dict.get "type" _) as [type'|] eqn:Hget; inversion Htype.
  subst type'. clear Htype.
  run H as st' w0 Hst.
  assert (Hst' : st' = effective_type type sample_type /\
                 env w0 = env w /\
                 log w0 = (if is_not_None type && ne_int type sample_type
                           then log w ++ [override_warning type sample_type]
                           else log w)%list).
  { unfold effective_type.
    destruct (is_not_None type); [destruct (ne_int type sample_type)|];
      simpl.
    - run Hst as u w1 Hwarn. unfold log_warning in Hwarn.
      inversion Hwarn; subst.
      apply ret_Ok in Hst. destruct Hst as [-> ->]. simpl. auto.
    - apply ret_Ok in Hst. destruct Hst as [-> ->]. auto.
    - apply ret_Ok in Hst. destruct Hst as [-> ->]. auto. }
  destruct Hst' as (-> & Henv0 & Hlog0). clear Hst.
  run H as u w1 Hdup.
  destruct (existsb _ sample_keywords); [discriminate|].
  apply ret_Ok in Hdup. destruct Hdup as [_ ->]. clear u.
  run_extern H as smp0 w2 Hinit Hlog2.
  rewrite Henv0 in Hinit.
  run H as new w3 Hnew. destruct new as [[data1 data2] md0].
  run_lift H as a1 Ha1.
  unfold Dict.getitem in Ha1.
  destruct (Dict.get (a1_name (super self)) (data (super self)))
    as [a1'|] eqn:Hga1; inversion Ha1. subst a1'. clear Ha1.
  run_lift H as smp1 Hsmp1.
  run_lift H as smp2 Hsmp2.
  apply ret_Ok in H. destruct H as [H ->]. inversion H. subst smp self'.
  clear H.
  unfold set_stream_data in Hsmp1.
  apply rbind_Ok in Hsmp1. destruct Hsmp1 as (s1 & Hs1 & Hsmp1).
  inversion Hsmp1. subst smp1. clear Hsmp1.
  unfold set_stream_data in Hsmp2.
  apply rbind_Ok in Hsmp2. destruct Hsmp2 as (s2 & Hs2 & Hsmp2).
  inversion Hsmp2. subst smp2. clear Hsmp2.
  unfold Dict.getitem in Hs1, Hs2. simpl in Hs1, Hs2.
  destruct (Dict.get (a1_name (super self)) (data (super smp0)))
    as [s1'|] eqn:Hg1; inversion Hs1. subst s1'. clear Hs1.
  destruct (Dict.get (a2_name (super self)) _)
    as [s2'|] eqn:Hg2; inversion Hs2. subst s2'. clear Hs2.
  exists type, smp0, (env w2), a1, data1, data2, md0, s1, s2.
  split; [reflexivity|]. split; [exact Hinit|].
  split.
  { destruct (get_new_sample (super self)).
    - run_lift Hnew as config Hconfig.
      destruct (generator_parameters_config self); try discriminate.
      simpl in Hconfig. inversion Hconfig. subst d. clear Hconfig.
      run_extern Hnew as params w4 Hparams Hlog4.
      run_extern Hnew as dfs w5 Hgen Hlog5. destruct dfs as [df1 df2].
      apply ret_Ok in Hnew. destruct Hnew as [Hres ->].
      inversion Hres. subst.
      exists config, params, (env w4), df1, df2. repeat split; auto.
    - apply ret_Ok in Hnew. destruct Hnew as [Hres ->].
      inversion Hres. auto. }
  split.
  { rewrite <- Hlog0, <- Hlog2.
    destruct (get_new_sample (super self)).
    - run_lift Hnew as config Hconfig.
      run_extern Hnew as params w4 Hparams Hlog4.
      run_extern Hnew as dfs w5 Hgen Hlog5. destruct dfs as [df1 df2].
      apply ret_Ok in Hnew. destruct Hnew as [_ ->]. congruence.
    - apply ret_Ok in Hnew. destruct Hnew as [_ ->]. reflexivity. }
  repeat (split; [first [assumption|reflexivity]|]). reflexivity.
Qed.

(** The metadata of the new instance: the six entries written by [sample],
    after the ['generator'] entry when parameters were drawn. *)
Lemma sample_metadata_get (self : SimpleBivariateGenerator)
      (type sample_type : Value) (last_row : Z) (md0 : Dict.t Value) :
  md0 = [] \/ (exists params, md0 = [("generator", params)]) ->
  let md := Dict.update md0 (sample_metadata self type sample_type last_row) in
  Dict.get "type" md = Some sample_type /\
  Dict.get "sample_num" md = Some (VInt (sample_num (super self))) /\
  Dict.get "parent_sample_type" md = Some type /\
  Dict.get "parent_sample_num" md = Some (VInt (sample_num (super self))) /\
  Dict.get "first_row" md = Some (VInt 0) /\
  Dict.get "last_row" md = Some (VInt last_row) /\
  Dict.get "generator" md = Dict.get "generator" md0.
Proof using Type.
  intros [->|[params ->]]; simpl; repeat split.
Qed.

(** C9.  When [self.metadata['type']] is set, the new instance records a
    type equal to it: the parent's own value when the requested type
    differs from it, in which case one warning is logged, and otherwise the
    requested int, which then equals the parent's value.  The recorded type
    is also the one the data are generated with. *)
Theorem sample_type_override (self smp self' : SimpleBivariateGenerator)
        (sample_type : Z) (broadcast_message : Value) (kwargs : Dict.t Value)
        (w w' : World) (type : Value) :
  Dict.get "type" (metadata (super self)) = Some type ->
  type <> VNone ->
  sample self sample_type broadcast_message kwargs w = Ok ((smp, self'), w') ->
  exists recorded,
    Dict.get "type" (metadata (super smp)) = Some recorded /\
    Dict.get "parent_sample_type" (metadata (super smp)) = Some type /\
    (forall t, type = VInt t -> recorded = VInt t) /\
    (ne_int type sample_type = true ->
       recorded = type /\
       log w' = (log w ++ [{| levelname := "WARNING";
                              msg := "Attempt to sample type {} given current sample type {}, overriden.";
                              args := [VInt sample_type; type] |}])%list) /\
    (ne_int type sample_type = false ->
       recorded = VInt sample_type /\ log w' = log w) /\
    (get_new_sample (super self) = true ->
       exists params e df1 df2,
         generate_data self params recorded e = Ok ((df1, df2), env w')).
Proof using Type.
  intros Htype Hset H. apply sample_inv in H.
  destruct H as (type' & smp0 & e1 & a1 & data1 & data2 & md0 & s1 & s2
                 & Htype' & _ & Hnew & Hlog & _ & _ & _ & -> & _).
  assert (type' = type) by congruence. subst type'.
  assert (Hnn : is_not_None type = true) by (destruct type; simpl; congruence).
  assert (Hmd0 : md0 = [] \/ (exists params, md0 = [("generator", params)])).
  { destruct (get_new_sample (super self)).
    - destruct Hnew as (? & params & ? & ? & ? & _ & _ & _ & _ & _ & ->).
      eauto.
    - destruct Hnew as (_ & _ & _ & ->). auto. }
  destruct (sample_metadata_get self type (effective_type type sample_type)
              (Stream.episode_num_records a1) Hmd0)
    as (Hty & _ & Hpty & _).
  exists (effective_type type sample_type).
  split; [exact Hty|]. split; [exact Hpty|].
  unfold effective_type in *. rewrite Hnn in *. simpl in Hlog.
  split; [|split; [|split]].
  - intros t ->. simpl. destruct (t =? sample_type) eqn:E; simpl; auto.
    apply Z.eqb_eq in E. congruence.
  - intros Hne. rewrite Hne in *. auto.
  - intros Hne. rewrite Hne in *. auto.
  - intros Hg. rewrite Hg in Hnew.
    destruct Hnew as (config & params & e2 & df1 & df2 & _ & _ & Hgen & _).
    eauto.
Qed.

(** C10.  A successful call of [sample] leaves [self] with [sample_num]
    one higher and every other attribute as it was.  The metadata of the
    new instance record the earlier [sample_num] under ['sample_num'] and
    ['parent_sample_num'], 0 under ['first_row'] and the first asset's
    [episode_num_records] under ['last_row']. *)
Theorem sample_increments_sample_num
        (self smp self' : SimpleBivariateGenerator)
        (sample_type : Z) (broadcast_message : Value) (kwargs : Dict.t Value)
        (w w' : World) :
  sample self sample_type broadcast_message kwargs w = Ok ((smp, self'), w') ->
  sample_num (super self') = sample_num (super self) + 1 /\
  (data_names (super self') = data_names (super self) /\
   name (super self') = name (super self) /\
   data_class_ref (super self') = data_class_ref (super self) /\
   nested_kwargs (super self') = nested_kwargs (super self) /\
   a1_name (super self') = a1_name (super self) /\
   a2_name (super self') = a2_name (super self) /\
   data (super self') = data (super self) /\
   names (super self') = names (super self) /\
   metadata (super self') = metadata (super self) /\
   filename (super self') = filename (super self) /\
   get_new_sample (super self') = get_new_sample (super self) /\
   generator_fn self' = generator_fn self /\
   generator_parameters_fn self' = generator_parameters_fn self /\
   generator_parameters_config self' = generator_parameters_config self /\
   columns_map self' = columns_map self) /\
  exists a1,
    Dict.get (a1_name (super self)) (data (super self)) = Some a1 /\
    Dict.get "sample_num" (metadata (super smp))
    = Some (VInt (sample_num (super self))) /\
    Dict.get "parent_sample_num" (metadata (super smp))
    = Some (VInt (sample_num (super self))) /\
    Dict.get "first_row" (metadata (super smp)) = Some (VInt 0) /\
    Dict.get "last_row" (metadata (super smp))
    = Some (VInt (Stream.episode_num_records a1)).
Proof using Type.
  intros H. apply sample_inv in H.
  destruct H as (type & smp0 & e1 & a1 & data1 & data2 & md0 & s1 & s2
                 & _ & _ & Hnew & _ & Ha1 & _ & _ & -> & ->).
  split; [reflexivity|]. split; [repeat split|].
  assert (Hmd0 : md0 = [] \/ (exists params, md0 = [("generator", params)])).
  { destruct (get_new_sample (super self)).
    - destruct Hnew as (? & params & ? & ? & ? & _ & _ & _ & _ & _ & ->).
      eauto.
    - destruct Hnew as (_ & _ & _ & ->). auto. }
  destruct (sample_metadata_get self type (effective_type type sample_type)
              (Stream.episode_num_records a1) Hmd0)
    as (_ & Hsn & _ & Hpsn & Hfr & Hlr & _).
  exists a1. repeat split; assumption.
Qed.

(** C1, as the code has it.  A successful call of [sample] on a generator
    whose [get_new_sample] flag is set draws parameters, generates data
    with them and returns a new instance wrapping the two dataframes.  On a
    generator whose flag is not set it runs the constructor of the new
    instance and nothing else: no parameters are drawn, no data are
    generated, and the streams of both assets of the new instance hold
    [None]. *)
Theorem sample_draws_when_new_sample
        (self smp self' : SimpleBivariateGenerator)
        (sample_type : Z) (broadcast_message : Value) (kwargs : Dict.t Value)
        (w w' : World) :
  sample self sample_type broadcast_message kwargs w = Ok ((smp, self'), w') ->
  (get_new_sample (super self) = true -> draws_and_wraps self w smp w') /\
  (get_new_sample (super self) = false ->
   (exists smp0, sample_instance self (env w) = Ok (smp0, env w')) /\
   (exists stream,
       Dict.get (a1_name (super self)) (data (super smp)) = Some stream /\
       Stream.data stream = None) /\
   (exists stream,
       Dict.get (a2_name (super self)) (data (super smp)) = Some stream /\
       Stream.data stream = None) /\
   Dict.get "generator" (metadata (super smp)) = None).
Proof using Type.
  intros H. apply sample_inv in H.
  destruct H as (type & smp0 & e1 & a1 & data1 & data2 & md0 & s1 & s2
                 & _ & Hinit & Hnew & _ & Ha1 & Hs1 & Hs2 & -> & _).
  split; intros Hflag; rewrite Hflag in Hnew.
  - destruct Hnew as (config & params & e2 & df1 & df2
                      & Hconfig & Hparams & Hgen & -> & -> & ->).
    exists smp0, e1, config, params, e2, (effective_type type sample_type),
      df1, df2.
    repeat (split; [first [assumption|reflexivity]|]).
    split; [|split].
    + simpl. rewrite get_set_same. eexists. split; reflexivity.
    + intros Hne. simpl.
      rewrite get_set_other by congruence. rewrite get_set_same.
      eexists. split; reflexivity.
    + reflexivity.
  - destruct Hnew as (<- & -> & -> & ->).
    split; [eauto|]. simpl. split; [|split; [|reflexivity]].
    + destruct (string_dec (a2_name (super self)) (a1_name (super self)))
        as [Heq|Hne].
      * rewrite Heq, get_set_same. eexists. split; reflexivity.
      * rewrite get_set_other by exact Hne. rewrite get_set_same.
        eexists. split; reflexivity.
    + rewrite get_set_same. eexists. split; reflexivity.
Qed.

(** *** [BivariateDataSet] *)

(** C4.  [BivariateDataSet.__init__] raises [AssertionError] when
    [assets_filenames] is no dict or has a number of keys other than two.
    For a dict of two keys it gets past its checks: it ends as the
    constructor of the base class does on the keywords put together, or
    with the [TypeError] of a keyword given twice.  So, the constructor of
    the base class raising no [AssertionError] of its own, an
    [AssertionError] means that [assets_filenames] is no dict or has a
    number of keys other than two. *)
Theorem BivariateDataSet_init_assertion
        (assets_filenames model_params : Value)
        (train_episode_duration test_episode_duration : Value)
        (name : option string) (kwargs : Dict.t Value) (e : Env) :
  let not_two_assets :=
    isinstance_dict assets_filenames = false \/
    exists assets,
      assets_filenames = VDict assets /\ length (Dict.keys assets) <> 2%nat in
  (not_two_assets ->
   BivariateDataSet_init assets_filenames model_params
     train_episode_duration test_episode_duration name kwargs e
   = Raise AssertionError) /\
  (forall assets,
      assets_filenames = VDict assets ->
      length (Dict.keys assets) = 2%nat ->
      (exists kw,
          Dict.get "train_class_ref" kw
          = Some (VClass cls_SimpleBivariateGenerator) /\
          BivariateDataSet_init assets_filenames model_params
            train_episode_duration test_episode_duration name kwargs e
          = BaseCombinedDataSet_init kw e) \/
      BivariateDataSet_init assets_filenames model_params
        train_episode_duration test_episode_duration name kwargs e
      = Raise TypeError) /\
  ((forall kw e0, BaseCombinedDataSet_init kw e0 <> Raise AssertionError) ->
   BivariateDataSet_init assets_filenames model_params
     train_episode_duration test_episode_duration name kwargs e
   = Raise AssertionError ->
   not_two_assets).
Proof using Type.
  intros not_two_assets. subst not_two_assets.
  unfold BivariateDataSet_init.
  destruct assets_filenames as [| | | | | | | |assets];
    try (split; [intros _; reflexivity
                |split; [intros assets0 Heq; discriminate
                        |intros _ _; left; reflexivity]]).
  unfold bind, assert, ret, lift, keywords. simpl.
  destruct (Z.of_nat (length (Dict.keys assets)) =? 2) eqn:Hlen.
  - apply Z.eqb_eq in Hlen.
    assert (Hlen' : length (Dict.keys assets) = 2%nat) by lia.
    assert (Hno : ~ (true = false \/
                     exists assets0 : Dict.t Value,
                       VDict assets = VDict assets0 /\
                       length (Dict.keys assets0) <> 2%nat)).
    { intros [Hd|(assets0 & Heq & Hne)]; [discriminate|].
      inversion Heq; subst. congruence. }
    match goal with
    | |- context [if ?c then _ else _] => destruct c eqn:Hdup
    end.
    + split; [intros H; destruct (Hno H)|]. split.
      * intros assets0 _ _. right. reflexivity.
      * intros _ H. discriminate.
    + split; [intros H; destruct (Hno H)|]. split.
      * intros assets0 _ _. left. eexists. split; [|reflexivity].
        reflexivity.
      * intros Hbase H. exfalso. eapply Hbase. exact H.
  - apply Z.eqb_neq in Hlen. split; [intros _; reflexivity|]. split.
    + intros assets0 Heq Hlen0. inversion Heq; subst. lia.
    + intros _ _. right. exists assets. split; [reflexivity|lia].
Qed.

(** C3.  A [BivariateDataSet] that gets built was built by the
    constructor of the base class on keywords that name
    [SimpleBivariateGenerator] as the train class, configured with the
    asset names and with [model_params] as [generator_parameters_config],
    and [BTgymMultiData] as the test class, configured with [BTgymDataset2]
    as data class and, for each asset of [assets_filenames], its file name
    under ['filename'].  A [SimpleBivariateGenerator] built from that train
    configuration keeps [model_params] as the keywords of its parameter
    draws, made by [bivariate_random_state_fn]. *)
Theorem BivariateDataSet_init_configures
        (assets_filenames model_params : Value)
        (train_episode_duration test_episode_duration : Value)
        (name : option string) (kwargs : Dict.t Value) (e e' : Env)
        (obj : BaseCombinedDataSet) :
  BivariateDataSet_init assets_filenames model_params
    train_episode_duration test_episode_duration name kwargs e
  = Ok (obj, e') ->
  exists assets kw train test config,
    assets_filenames = VDict assets /\
    length (Dict.keys assets) = 2%nat /\
    BaseCombinedDataSet_init kw e = Ok (obj, e') /\
    Dict.get "train_class_ref" kw
    = Some (VClass cls_SimpleBivariateGenerator) /\
    Dict.get "train_data_config" kw = Some (VDict train) /\
    Dict.get "data_names" train = Some (VList (map VStr (Dict.keys assets))) /\
    Dict.get "generator_parameters_config" train = Some model_params /\
    Dict.get "episode_duration" train = Some train_episode_duration /\
    Dict.get "test_class_ref" kw = Some (VClass cls_BTgymMultiData) /\
    Dict.get "test_data_config" kw = Some (VDict test) /\
    Dict.get "data_class_ref" test = Some (VClass cls_BTgymDataset2) /\
    Dict.get "episode_duration" test = Some test_episode_duration /\
    Dict.get "data_config" test = Some (VDict config) /\
    Dict.keys config = Dict.keys assets /\
    (forall asset,
        Dict.get asset config
        = option_map (fun file_name => VDict [("filename", file_name)])
                     (Dict.get asset assets)) /\
    (forall gen_name gen_kwargs e0 generator e1,
        SimpleBivariateGenerator_init (Dict.keys assets) model_params
          None None gen_name gen_kwargs e0 = Ok (generator, e1) ->
        generator_parameters_config generator = model_params /\
        generator_parameters_fn generator = Fn bivariate_random_state_fn_kw /\
        generator_fn generator = Fn bivariate_generator_fn_kw).
Proof using Type.
  unfold BivariateDataSet_init. intros H.
  destruct assets_filenames as [| | | | | | | |assets]; try discriminate.
  run H as u e0 Hdict. apply assert_Ok in Hdict. destruct Hdict as [_ ->].
  run H as u1 e1 Hlen. apply assert_Ok in Hlen. destruct Hlen as [Hlen ->].
  run H as u2 e2 Hdict. apply assert_Ok in Hdict. destruct Hdict as [_ ->].
  run H as u3 e3 Hlen2. apply assert_Ok in Hlen2. destruct Hlen2 as [_ ->].
  run_lift H as kw Hkw.
  unfold keywords in Hkw.
  destruct (existsb _ _); [discriminate|]. inversion Hkw. subst kw. clear Hkw.
  apply Z.eqb_eq in Hlen.
  eexists assets, _, _, _, _.
  split; [reflexivity|]. split; [lia|]. split; [exact H|].
  do 10 (split; [reflexivity|]).
  split; [apply keys_map_items|]. split; [intros asset; apply get_map_items|].
  intros gn gk e0 g e1 Hg. apply SimpleBivariateGenerator_init_inv in Hg.
  destruct Hg as (b & _ & _ & _ & _ & _ & Hgf & Hpf & Hconfig & _).
  auto.
Qed.

(** ** Further properties *)

(** *** Errors of [generate_data] *)

(** A comprehension raises what its body raises at the first key where it
    does. *)
Lemma comprehension_raises {V} (f : string -> result V)
      (pre post : list string) (k : string) (err : exn) :
  (forall k', In k' pre -> exists v, f k' = Ok v) ->
  f k = Raise err ->
  forall acc, Dict.comprehension f (pre ++ k :: post) acc = Raise err.
Proof using Type.
  intros Hpre Hk. induction pre as [|k0 pre IH]; simpl; intros acc.
  - rewrite Hk. reflexivity.
  - destruct (Hpre k0) as (v & Hv); [now left|]. rewrite Hv. simpl.
    apply IH. intros k' Hin. apply Hpre. now right.
Qed.

(** The run of [generate_data] up to the two rows of the generated array. *)
Lemma generate_data_rows (self : SimpleBivariateGenerator)
      (params : Dict.t Value) (sample_type : Value) (e e' : Env)
      (a1 : Stream.t float Value) (x : ndarray3 float)
      (row0 row1 : list float) :
  Dict.get (a1_name (super self)) (data (super self)) = Some a1 ->
  Dict.mem "num_points" params = false ->
  call (generator_fn self)
       (("num_points", VInt (Stream.episode_num_records a1)) :: params) e
  = Ok (x, e') ->
  row_of x 0 0 = Ok row0 ->
  row_of x 0 1 = Ok row1 ->
  generate_data self (VDict params) sample_type e
  = rbind (map_columns self (aggregates row0)) (fun data1 =>
    rbind (pd.DataFrame_init data1
             (if truth sample_type then Stream.test_index a1
              else Stream.train_index a1)) (fun df1 =>
    rbind (map_columns self (aggregates row1)) (fun data2 =>
    rbind (pd.DataFrame_init data2
             (if truth sample_type then Stream.test_index a1
              else Stream.train_index a1)) (fun df2 =>
    Ok ((df1, df2), e'))))).
Proof using Type.
  intros Ha1 Hmem Hcall Hr0 Hr1.
  unfold generate_data, bind, lift, Dict.getitem.
  rewrite Ha1. simpl. unfold keywords. simpl. rewrite Hmem. simpl.
  rewrite Hcall, Hr0, Hr1.
  change [("mean", row0); ("maximum", row0); ("minimum", row0); ("last", row0)]
    with (aggregates row0).
  change [("mean", row1); ("maximum", row1); ("minimum", row1); ("last", row1)]
    with (aggregates row1).
  destruct (map_columns self (aggregates row0)) as [data1|err];
    [|reflexivity]. simpl.
  destruct (pd.DataFrame_init data1 _) as [df1|err]; [|reflexivity]. simpl.
  destruct (map_columns self (aggregates row1)) as [data2|err];
    [|reflexivity]. simpl.
  destruct (pd.DataFrame_init data2 _) as [df2|err]; reflexivity.
Qed.

(** X1.  A name in [self.names] that [columns_map] does not know, such as
    ['volume'], makes [generate_data] raise [KeyError] with that name, once
    the generator has been called and the names before it were mapped. *)
Theorem generate_data_unmapped_name (self : SimpleBivariateGenerator)
        (params : Dict.t Value) (sample_type : Value) (e e' : Env)
        (a1 : Stream.t float Value) (x : ndarray3 float)
        (row0 row1 : list float) (pre post : list string) (name : string) :
  Dict.get (a1_name (super self)) (data (super self)) = Some a1 ->
  Dict.mem "num_points" params = false ->
  call (generator_fn self)
       (("num_points", VInt (Stream.episode_num_records a1)) :: params) e
  = Ok (x, e') ->
  row_of x 0 0 = Ok row0 ->
  row_of x 0 1 = Ok row1 ->
  names (super self) = (pre ++ name :: post)%list ->
  (forall n, In n pre ->
     exists aggregate,
       Dict.get n (columns_map self) = Some aggregate /\
       In aggregate ["mean"; "maximum"; "minimum"; "last"]) ->
  Dict.get name (columns_map self) = None ->
  generate_data self (VDict params) sample_type e = Raise (KeyError name).
Proof using Type.
  intros Ha1 Hmem Hcall Hr0 Hr1 Hnames Hpre Hname.
  rewrite (generate_data_rows self params sample_type e Ha1 Hmem Hcall Hr0 Hr1).
  unfold map_columns at 1. rewrite Hnames.
  rewrite (@comprehension_raises _ _ pre post name (KeyError name));
    [reflexivity| |].
  - intros n Hin. destruct (Hpre n Hin) as (agg & Hget & Hagg).
    unfold Dict.getitem. rewrite Hget. simpl.
    destruct Hagg as [<-|[<-|[<-|[<-|[]]]]]; simpl; eauto.
  - unfold Dict.getitem. rewrite Hname. reflexivity.
Qed.

(** X2.  When the generator returns an array with no batch entry or with
    fewer than two series, [generate_data] raises [IndexError]. *)
Theorem generate_data_short_output (self : SimpleBivariateGenerator)
        (params : Dict.t Value) (sample_type : Value) (e e' : Env)
        (a1 : Stream.t float Value) (x : ndarray3 float) (a b n : nat) :
  Dict.get (a1_name (super self)) (data (super self)) = Some a1 ->
  Dict.mem "num_points" params = false ->
  call (generator_fn self)
       (("num_points", VInt (Stream.episode_num_records a1)) :: params) e
  = Ok (x, e') ->
  has_shape x a b n ->
  (a = 0 \/ b < 2)%nat ->
  generate_data self (VDict params) sample_type e = Raise IndexError.
Proof using Type.
  intros Ha1 Hmem Hcall [Hlen Hall] Hshort.
  unfold generate_data, bind, lift, Dict.getitem.
  rewrite Ha1. simpl. unfold keywords. simpl. rewrite Hmem. simpl.
  rewrite Hcall. simpl.
  destruct x as [|plane rest]; [reflexivity|].
  inversion Hall as [|? ? [Hb _] _]; subst.
  destruct Hshort as [Ha|Hb]; [discriminate|].
  destruct plane as [|r0 [|r1 plane]]; simpl in Hb; try reflexivity.
  lia.
Qed.

(** *** Columns of the dataframes *)

Lemma mem_keys {V} (k : string) (d : Dict.t V) :
  Dict.mem k d = existsb (String.eqb k) (Dict.keys d).
Proof using Type.
  unfold Dict.mem. induction d as [|[k' v] d IH]; simpl; [reflexivity|].
  destruct (String.eqb k k'); [reflexivity|exact IH].
Qed.

Lemma mem_In {V} (k : string) (d : Dict.t V) :
  Dict.mem k d = true <-> In k (Dict.keys d).
Proof using Type.
  rewrite mem_keys, existsb_exists. split.
  - intros (k' & Hin & Heq). apply String.eqb_eq in Heq. now subst.
  - intros Hin. exists k. split; [exact Hin|apply String.eqb_refl].
Qed.

(** Assigning to a key keeps the order of the keys and adds a new key at
    the end. *)
Lemma keys_set {V} (k : string) (v : V) (d : Dict.t V) :
  Dict.keys (Dict.set k v d)
  = if Dict.mem k d then Dict.keys d else (Dict.keys d ++ [k])%list.
Proof using Type.
  unfold Dict.mem. induction d as [|[k' v'] d IH]; simpl; [reflexivity|].
  destruct (String.eqb k k') eqn:E; simpl.
  - apply String.eqb_eq in E. now subst.
  - rewrite IH. destruct (Dict.get k d); reflexivity.
Qed.

Lemma set_NoDup {V} (k : string) (v : V) (d : Dict.t V) :
  NoDup (Dict.keys d) -> NoDup (Dict.keys (Dict.set k v d)).
Proof using Type.
  intros Hd. rewrite keys_set. destruct (Dict.mem k d) eqn:E; [exact Hd|].
  apply NoDup_app; [exact Hd|repeat constructor; auto|].
  intros k' Hin [<-|[]]. apply mem_In in Hin. congruence.
Qed.

Lemma comprehension_NoDup {V} (f : string -> result V) (ks : list string) :
  forall acc d,
    NoDup (Dict.keys acc) ->
    Dict.comprehension f ks acc = Ok d ->
    NoDup (Dict.keys d).
Proof using Type.
  induction ks as [|k ks IH]; simpl; intros acc d Hacc H.
  - inversion H; subst; exact Hacc.
  - apply rbind_Ok in H. destruct H as (v & _ & H).
    eapply IH; [|exact H]. apply set_NoDup. exact Hacc.
Qed.

(** The keys of a comprehension do not depend on its body. *)
Lemma comprehension_same_keys {V W} (f : string -> result V)
      (g : string -> result W) (ks : list string) :
  forall acc acc' d d',
    Dict.keys acc = Dict.keys acc' ->
    Dict.comprehension f ks acc = Ok d ->
    Dict.comprehension g ks acc' = Ok d' ->
    Dict.keys d = Dict.keys d'.
Proof using Type.
  induction ks as [|k ks IH]; simpl; intros acc acc' d d' Hkeys H H'.
  - inversion H; inversion H'; subst; exact Hkeys.
  - apply rbind_Ok in H. destruct H as (v & _ & H).
    apply rbind_Ok in H'. destruct H' as (v' & _ & H').
    eapply IH; [|exact H|exact H'].
    rewrite !keys_set, !mem_keys, Hkeys. reflexivity.
Qed.

(** Over keys that are new and distinct, a comprehension lists them in
    their order. *)
Lemma comprehension_keys_NoDup {V} (f : string -> result V)
      (ks : list string) :
  forall acc d,
    NoDup (Dict.keys acc ++ ks) ->
    Dict.comprehension f ks acc = Ok d ->
    Dict.keys d = (Dict.keys acc ++ ks)%list.
Proof using Type.
  induction ks as [|k ks IH]; simpl; intros acc d Hnd H.
  - inversion H; subst. now rewrite app_nil_r.
  - apply rbind_Ok in H. destruct H as (v & _ & H).
    assert (Hmem : Dict.mem k acc = false).
    { destruct (Dict.mem k acc) eqn:E; [|reflexivity].
      apply mem_In in E. apply NoDup_remove_2 in Hnd.
      exfalso. apply Hnd. apply in_or_app. now left. }
    assert (Hkeys : Dict.keys (Dict.set k v acc) = (Dict.keys acc ++ [k])%list).
    { rewrite keys_set, Hmem. reflexivity. }
    rewrite (IH (Dict.set k v acc) d); [|rewrite Hkeys, <- app_assoc|];
      [|exact Hnd|exact H].
    rewrite Hkeys, <- app_assoc. reflexivity.
Qed.

(** X3.  The two dataframes returned by [generate_data] have the same
    columns in the same order, each column once even when a name is repeated
    in [self.names]; when no name is repeated, the columns are the names in
    their order. *)
Theorem generate_data_columns (self : SimpleBivariateGenerator)
        (generator_params sample_type : Value) (e e' : Env)
        (df1 df2 : pd.DataFrame float) :
  generate_data self generator_params sample_type e = Ok ((df1, df2), e') ->
  Dict.keys (pd.columns df1) = Dict.keys (pd.columns df2) /\
  NoDup (Dict.keys (pd.columns df1)) /\
  (NoDup (names (super self)) ->
   Dict.keys (pd.columns df1) = names (super self)).
Proof using Type.
  intros H. apply generate_data_inv in H.
  destruct H as (a1 & params & x & row0 & row1 & cols1 & cols2 & _ & _ & _
                 & _ & _ & _ & Hc1 & Hc2 & -> & -> & _ & _).
  unfold pd.broadcast. rewrite !keys_map_items.
  unfold map_columns in Hc1, Hc2. split; [|split].
  - eapply comprehension_same_keys; [|exact Hc1|exact Hc2]. reflexivity.
  - eapply comprehension_NoDup; [|exact Hc1]. constructor.
  - intros Hnd.
    exact (@comprehension_keys_NoDup _ _ (names (super self)) [] _ Hnd Hc1).
Qed.

(** *** The two module level functions together *)

(** X4.  The parameters drawn by [bivariate_random_state_fn] fit the keyword
    call [generate_data] makes: they hold no ['num_points'], and
    [bivariate_generator_fn] called with them and [num_points] asks the
    model class for one batch of [num_points] points from the drawn state
    and rounds the reconstructed series to 6 places, the auxiliary entries
    being ignored. *)
Theorem default_generator_pipeline (kwargs : Dict.t Value) (e e1 : Env)
        (state : BivariateTSModelState) :
  get_random_state [] kwargs e = Ok (state, e1) ->
  exists params,
    bivariate_random_state_fn_kw kwargs e = Ok (VDict params, e1) /\
    Dict.mem "num_points" params = false /\
    forall num_points,
      bivariate_generator_fn_kw (("num_points", VInt num_points) :: params) e1
      = match generate_bivariate_trajectory_fn
                1 num_points state true u_recon e1 with
        | Ok ((_, x), e2) => Ok (np_around x 6, e2)
        | Raise err => Raise err
        end.
Proof using Type.
  intros Hstate.
  unfold bivariate_random_state_fn_kw, bivariate_random_state_fn, bind.
  rewrite Hstate. unfold ret. eexists. split; [reflexivity|].
  split; [reflexivity|].
  intros num_points. unfold bivariate_generator_fn_kw. simpl.
  unfold bivariate_generator_fn, bind, ret.
  destruct (generate_bivariate_trajectory_fn 1 num_points state true u_recon e1)
    as [[[latent x] e2]|err]; reflexivity.
Qed.

(** *** More on [sample] *)

(** The metadata written by a successful call. *)
Lemma sample_metadata_inv (self smp self' : SimpleBivariateGenerator)
      (sample_type : Z) (broadcast_message : Value) (kwargs : Dict.t Value)
      (w w' : World) :
  sample self sample_type broadcast_message kwargs w = Ok ((smp, self'), w') ->
  exists type a1,
    Dict.get "type" (metadata (super self)) = Some type /\
    Dict.get (a1_name (super self)) (data (super self)) = Some a1 /\
    Dict.get "type" (metadata (super smp))
    = Some (effective_type type sample_type) /\
    Dict.get "sample_num" (metadata (super smp))
    = Some (VInt (sample_num (super self))) /\
    Dict.get "parent_sample_type" (metadata (super smp)) = Some type /\
    Dict.get "parent_sample_num" (metadata (super smp))
    = Some (VInt (sample_num (super self))) /\
    log w' = (if is_not_None type && ne_int type sample_type
              then log w ++ [override_warning type sample_type]
              else log w)%list /\
    self' = set_sample_num self (sample_num (super self) + 1).
Proof using Type.
  intros H. apply sample_inv in H.
  destruct H as (type & smp0 & e1 & a1 & data1 & data2 & md0 & s1 & s2
                 & Htype & _ & Hnew & Hlog & Ha1 & _ & _ & -> & ->).
  assert (Hmd0 : md0 = [] \/ (exists params, md0 = [("generator", params)])).
  { destruct (get_new_sample (super self)).
    - destruct Hnew as (? & params & ? & ? & ? & _ & _ & _ & _ & _ & ->).
      eauto.
    - destruct Hnew as (_ & _ & _ & ->). auto. }
  destruct (sample_metadata_get self type (effective_type type sample_type)
              (Stream.episode_num_records a1) Hmd0)
    as (Hty & Hsn & Hpty & Hpsn & _).
  exists type, a1. repeat (split; [assumption|]). reflexivity.
Qed.

(** X5.  On a generator whose [get_new_sample] flag is off, a successful
    [sample] runs nothing but the constructor of the new instance: the
    external state is as the constructor left it, the streams of both
    assets of the new instance hold no data, and the metadata are the six
    entries written by [sample], without ['generator']. *)
Theorem sample_without_new_sample
        (self smp self' : SimpleBivariateGenerator)
        (sample_type : Z) (broadcast_message : Value) (kwargs : Dict.t Value)
        (w w' : World) :
  get_new_sample (super self) = false ->
  sample self sample_type broadcast_message kwargs w = Ok ((smp, self'), w') ->
  (exists smp0, sample_instance self (env w) = Ok (smp0, env w')) /\
  (exists stream,
      Dict.get (a1_name (super self)) (data (super smp)) = Some stream /\
      Stream.data stream = None) /\
  (exists stream,
      Dict.get (a2_name (super self)) (data (super smp)) = Some stream /\
      Stream.data stream = None) /\
  Dict.keys (metadata (super smp))
  = ["type"; "sample_num"; "parent_sample_type"; "parent_sample_num";
     "first_row"; "last_row"] /\
  Dict.get "generator" (metadata (super smp)) = None.
Proof using Type.
  intros Hflag H. apply sample_inv in H.
  destruct H as (type & smp0 & e1 & a1 & data1 & data2 & md0 & s1 & s2
                 & _ & Hinit & Hnew & _ & _ & _ & _ & -> & _).
  rewrite Hflag in Hnew. destruct Hnew as (<- & -> & -> & ->).
  split; [eauto|]. simpl. split; [|split; [|split; reflexivity]].
  - destruct (string_dec (a2_name (super self)) (a1_name (super self)))
      as [Heq|Hne].
    + rewrite Heq, get_set_same. eexists. split; reflexivity.
    + rewrite get_set_other by exact Hne. rewrite get_set_same.
      eexists. split; reflexivity.
  - rewrite get_set_same. eexists. split; reflexivity.
Qed.

(** X6.  When [self.metadata['type']] is [None], [sample] goes on with the
    requested type: it is the type recorded in the new instance and the one
    the data are generated with, ['parent_sample_type'] is [None], and
    nothing is logged. *)
Theorem sample_type_unset (self smp self' : SimpleBivariateGenerator)
        (sample_type : Z) (broadcast_message : Value) (kwargs : Dict.t Value)
        (w w' : World) :
  Dict.get "type" (metadata (super self)) = Some VNone ->
  sample self sample_type broadcast_message kwargs w = Ok ((smp, self'), w') ->
  Dict.get "type" (metadata (super smp)) = Some (VInt sample_type) /\
  Dict.get "parent_sample_type" (metadata (super smp)) = Some VNone /\
  log w' = log w /\
  (get_new_sample (super self) = true ->
   exists params e df1 df2,
     generate_data self params (VInt sample_type) e
     = Ok ((df1, df2), env w')).
Proof using Type.
  intros Hnone H.
  destruct (sample_metadata_inv _ _ _ _ _ H)
    as (type & a1 & Htype & _ & Hty & _ & Hpty & _ & Hlog & _).
  assert (type = VNone) by congruence. subst type.
  split; [exact Hty|]. split; [exact Hpty|]. split; [exact Hlog|].
  intros Hflag. apply sample_inv in H.
  destruct H as (type & smp0 & e1 & a1' & data1 & data2 & md0 & s1 & s2
                 & Htype' & _ & Hnew & _).
  assert (type = VNone) by congruence. subst type.
  rewrite Hflag in Hnew.
  destruct Hnew as (config & params & e2 & df1 & df2 & _ & _ & Hgen & _).
  eauto.
Qed.

(** The constructor run behind a new instance, and what [sample] keeps of
    its result. *)
Lemma sample_instance_inv (self smp self' : SimpleBivariateGenerator)
      (sample_type : Z) (broadcast_message : Value) (kwargs : Dict.t Value)
      (w w' : World) :
  sample self sample_type broadcast_message kwargs w = Ok ((smp, self'), w') ->
  exists smp0 e1,
    sample_instance self (env w) = Ok (smp0, e1) /\
    existsb (fun k => Dict.mem k (nested_kwargs (super self))) sample_keywords
    = false /\
    generator_fn smp = generator_fn smp0 /\
    generator_parameters_fn smp = generator_parameters_fn smp0 /\
    generator_parameters_config smp = generator_parameters_config smp0 /\
    columns_map smp = columns_map smp0 /\
    data_names (super smp) = data_names (super smp0) /\
    name (super smp) = name (super smp0) /\
    data_class_ref (super smp) = data_class_ref (super smp0) /\
    nested_kwargs (super smp) = nested_kwargs (super smp0) /\
    a1_name (super smp) = a1_name (super smp0) /\
    a2_name (super smp) = a2_name (super smp0) /\
    sample_num (super smp) = sample_num (super smp0) /\
    get_new_sample (super smp) = get_new_sample (super smp0) /\
    names (super smp) = names (super self) /\
    filename (super smp)
    = Dict.map_items (fun _ stream => Stream.filename stream)
                     (data (super self)).
Proof using Type.
  intros H.
  assert (Hfree : existsb (fun k => Dict.mem k (nested_kwargs (super self)))
                          sample_keywords = false).
  { unfold sample in H. run_lift H as type Htype. run H as st' w0 Hst.
    run H as u w1 Hdup.
    destruct (existsb _ sample_keywords); [discriminate|reflexivity]. }
  apply sample_inv in H.
  destruct H as (type & smp0 & e1 & a1 & data1 & data2 & md0 & s1 & s2
                 & _ & Hinit & _ & _ & _ & _ & _ & -> & _).
  exists smp0, e1. split; [exact Hinit|]. split; [exact Hfree|].
  repeat split.
Qed.

(** X7.  The new instance does not take over the callables of the
    generator it is sampled from: unless [nested_kwargs] name others, its
    [generator_fn] and [generator_parameters_fn] are the defaults
    [bivariate_generator_fn] and [bivariate_random_state_fn], whatever
    [self] holds.  Its [generator_parameters_config] is that of [self], its
    [columns_map] the one the constructor writes. *)
Theorem sample_default_callables
        (self smp self' : SimpleBivariateGenerator)
        (sample_type : Z) (broadcast_message : Value) (kwargs : Dict.t Value)
        (w w' : World) :
  Dict.get "generator_fn" (nested_kwargs (super self)) = None ->
  Dict.get "generator_parameters_fn" (nested_kwargs (super self)) = None ->
  sample self sample_type broadcast_message kwargs w = Ok ((smp, self'), w') ->
  generator_fn smp = Fn bivariate_generator_fn_kw /\
  generator_parameters_fn smp = Fn bivariate_random_state_fn_kw /\
  generator_parameters_config smp = generator_parameters_config self /\
  columns_map smp
  = [("open", "mean"); ("high", "maximum"); ("low", "minimum");
     ("close", "last"); ("bid", "minimum"); ("ask", "maximum");
     ("mid", "mean")].
Proof using Type.
  intros Hgf Hpf H.
  destruct (sample_instance_inv _ _ _ _ _ H)
    as (smp0 & e1 & Hinit & _ & -> & -> & -> & -> & _).
  unfold sample_instance in Hinit. rewrite Hgf, Hpf in Hinit.
  apply SimpleBivariateGenerator_init_inv in Hinit.
  destruct Hinit as (b & _ & _ & _ & _ & _ & Hg & Hp & Hconfig & Hmap).
  auto.
Qed.

(** X8.  The new instance has the names of [self], and its [filename]
    maps every asset of [self.data], in order, to the file name of the
    stream [self] holds for it. *)
Theorem sample_names_filename
        (self smp self' : SimpleBivariateGenerator)
        (sample_type : Z) (broadcast_message : Value) (kwargs : Dict.t Value)
        (w w' : World) :
  sample self sample_type broadcast_message kwargs w = Ok ((smp, self'), w') ->
  names (super smp) = names (super self) /\
  Dict.keys (filename (super smp)) = Dict.keys (data (super self)) /\
  (forall key,
      Dict.get key (filename (super smp))
      = option_map (fun stream => Stream.filename stream)
                   (Dict.get key (data (super self)))).
Proof using Type.
  intros H.
  destruct (sample_instance_inv _ _ _ _ _ H)
    as (smp0 & e1 & _ & _ & _ & _ & _ & _ & _ & _ & _ & _ & _ & _ & _ & _
        & Hnames & ->).
  split; [exact Hnames|]. split; [apply keys_map_items|].
  intros key. rewrite get_map_items. reflexivity.
Qed.





(** X10.  Two calls of [sample] in a row on the same generator number
    their samples consecutively: the second call runs on the generator the
    first one returned, whose [sample_num] is one higher, and leaves it two
    higher; both samples record the same type of the parent, which no call
    changes. *)
Theorem sample_twice
        (self smp1 self1 smp2 self2 : SimpleBivariateGenerator)
        (type1 type2 : Z) (message1 message2 : Value)
        (kwargs1 kwargs2 : Dict.t Value) (w w1 w1' w2 : World) :
  sample self type1 message1 kwargs1 w = Ok ((smp1, self1), w1) ->
  sample self1 type2 message2 kwargs2 w1' = Ok ((smp2, self2), w2) ->
  sample_num (super self2) = sample_num (super self) + 2 /\
  Dict.get "sample_num" (metadata (super smp1))
  = Some (VInt (sample_num (super self))) /\
  Dict.get "sample_num" (metadata (super smp2))
  = Some (VInt (sample_num (super self) + 1)) /\
  Dict.get "parent_sample_num" (metadata (super smp2))
  = Some (VInt (sample_num (super self) + 1)) /\
  Dict.get "parent_sample_type" (metadata (super smp2))
  = Dict.get "parent_sample_type" (metadata (super smp1)).
Proof using Type.
  intros H1 H2.
  destruct (sample_metadata_inv _ _ _ _ _ H1)
    as (t1 & a1 & Ht1 & _ & _ & Hsn1 & Hpt1 & _ & _ & ->).
  destruct (sample_metadata_inv _ _ _ _ _ H2)
    as (t2 & a2 & Ht2 & _ & _ & Hsn2 & Hpt2 & Hpsn2 & _ & ->).
  simpl in *. assert (t2 = t1) by congruence. subst t2.
  split; [lia|]. repeat (split; [assumption|]). congruence.
Qed.

(** X11.  Once a sample is taken its type is settled for everything
    sampled from it: for a generator whose own type is unset or an int, a
    sample of its sample records the type of that sample, whatever type is
    asked for, and records it as ['parent_sample_type'] too. *)
Theorem sample_of_sample_type
        (self smp self' smp2 smp' : SimpleBivariateGenerator)
        (type1 type2 : Z) (message1 message2 : Value)
        (kwargs1 kwargs2 : Dict.t Value) (w w1 w1' w2 : World) :
  (Dict.get "type" (metadata (super self)) = Some VNone \/
   exists t, Dict.get "type" (metadata (super self)) = Some (VInt t)) ->
  sample self type1 message1 kwargs1 w = Ok ((smp, self'), w1) ->
  sample smp type2 message2 kwargs2 w1' = Ok ((smp2, smp'), w2) ->
  exists t,
    Dict.get "type" (metadata (super smp)) = Some (VInt t) /\
    Dict.get "type" (metadata (super smp2)) = Some (VInt t) /\
    Dict.get "parent_sample_type" (metadata (super smp2)) = Some (VInt t).
Proof using Type.
  intros Hself H1 H2.
  destruct (sample_metadata_inv _ _ _ _ _ H1)
    as (t1 & a1 & Ht1 & _ & Hty1 & _).
  destruct (sample_metadata_inv _ _ _ _ _ H2)
    as (t2 & a2 & Ht2 & _ & Hty2 & _ & Hpty2 & _).
  assert (Hint : exists t, effective_type t1 type1 = VInt t).
  { destruct Hself as [Hn|[t Ht]].
    - assert (t1 = VNone) by congruence. subst t1. simpl. eauto.
    - assert (t1 = VInt t) by congruence. subst t1.
      unfold effective_type. simpl. destruct (t =? type1); simpl; eauto. }
  destruct Hint as (t & Ht). rewrite Ht in Hty1.
  assert (t2 = VInt t) by congruence. subst t2.
  exists t. split; [exact Hty1|]. split; [|exact Hpty2].
  rewrite Hty2. unfold effective_type. simpl.
  destruct (t =? type2) eqn:E; simpl; [|reflexivity].
  apply Z.eqb_eq in E. now subst.
Qed.

(** *** Keywords of [BivariateDataSet] *)

(** X12.  For two assets, a further keyword of [BivariateDataSet.__init__]
    that is one of the four configuration keywords it passes itself makes
    the call of the base constructor a [TypeError].  Otherwise the base
    constructor is called on the five keywords of the constructor followed
    by the further keywords as given, with ['name'] the given name or
    ['BivariateDataSet']. *)
Theorem BivariateDataSet_init_kwargs
        (assets : Dict.t Value) (model_params : Value)
        (train_episode_duration test_episode_duration : Value)
        (name : option string) (kwargs : Dict.t Value) (e : Env) :
  length (Dict.keys assets) = 2%nat ->
  (forall k,
      In k ["train_data_config"; "test_data_config"; "train_class_ref";
            "test_class_ref"] ->
      Dict.mem k kwargs = true ->
      BivariateDataSet_init (VDict assets) model_params
        train_episode_duration test_episode_duration name kwargs e
      = Raise TypeError) /\
  ((forall k,
       In k ["train_data_config"; "test_data_config"; "train_class_ref";
             "test_class_ref"; "name"] ->
       Dict.mem k kwargs = false) ->
   exists kw,
     BivariateDataSet_init (VDict assets) model_params
       train_episode_duration test_episode_duration name kwargs e
     = BaseCombinedDataSet_init kw e /\
     Dict.keys kw
     = (["train_data_config"; "test_data_config"; "train_class_ref";
         "test_class_ref"; "name"] ++ Dict.keys kwargs)%list /\
     Dict.get "name" kw
     = Some (VStr (match name with
                   | Some n => n
                   | None => "BivariateDataSet"
                   end)) /\
     (forall k v, Dict.get k kwargs = Some v -> Dict.get k kw = Some v)).
Proof using Type.
  intros Hlen.
  assert (Hz : (Z.of_nat (length (Dict.keys assets)) =? 2) = true)
    by (apply Z.eqb_eq; lia).
  unfold BivariateDataSet_init, bind, assert, ret, lift, keywords.
  simpl. rewrite Hz. simpl. split.
  - intros k Hin Hmem.
    destruct Hin as [<-|[<-|[<-|[<-|[]]]]]; rewrite Hmem;
      rewrite ?orb_true_r; reflexivity.
  - intros Hfree.
    rewrite !Hfree by (simpl; auto 10). simpl.
    eexists. split; [reflexivity|].
    split; [reflexivity|]. split; [reflexivity|].
    intros k v Hk.
    assert (Hmem : Dict.mem k kwargs = true)
      by (unfold Dict.mem; rewrite Hk; reflexivity).
    cbn [Dict.get].
    repeat match goal with
           | |- context [String.eqb k ?s] =>
               let E := fresh "E" in
               destruct (String.eqb k s) eqn:E;
               [apply String.eqb_eq in E; subst k;
                rewrite Hfree in Hmem by (simpl; auto 10); discriminate|]
           end.
    exact Hk.
Qed.

End Bivariate.

(** ** A concrete run

    The module is run end to end on stand-ins for the external code:
    fixed-point numbers counting 1e-8 for floats, a counter of draws for
    the external state, a model that produces ramps, a base class that
    builds one stream of three records per asset. *)

Definition demo_unit : Z := 100000000.

(** a truncated series standing in for the exponential *)
Definition demo_exp (v : Z) : Z :=
  demo_unit + v + v * v / (2 * demo_unit).

(** rounding to [d] decimal places, halves up *)
Definition demo_around (v d : Z) : Z :=
  let q := 10 ^ (8 - d) in (v + q / 2) / q * q.

Definition demo_ne_int (f z : Z) : bool := negb (f =? z * demo_unit).
Definition demo_truth (f : Z) : bool := negb (f =? 0).

Definition DemoValue : Type := Value Z.
Definition DemoWorld : Type := World Z Z.
Definition DemoGenerator : Type := SimpleBivariateGenerator Z Z.

(** two ramps per batch entry, starting near 1.0 and 2.0, with digits
    below the sixth decimal place *)
Definition demo_trajectory (batch_size size : Z)
           (state : Model.BivariateTSModelState Z) (reconstruct : bool)
           (u : unit) : M Z (ndarray3 Z * ndarray3 Z) :=
  fun e =>
    let mu := Model.mu (Model.observation (Model.process (Model.s state))) in
    let ramp (start : Z) :=
      map (fun k => start + mu + (e + 1) * 1234567 * Z.of_nat k)
          (seq 0 (Z.to_nat size)) in
    let series :=
      repeat [ramp demo_unit; ramp (2 * demo_unit)] (Z.to_nat batch_size) in
    Ok ((series, series), e + 1).

Definition demo_random_state (args : list DemoValue)
           (kwargs : Dict.t DemoValue)
  : M Z (Model.BivariateTSModelState Z) :=
  fun e =>
    let line (m : Z) :=
      {| Model.process :=
           {| Model.observation :=
                {| Model.mu := m;
                   Model.log_theta := 0;
                   Model.log_sigma := demo_unit / 2 |} |} |} in
    Ok ({| Model.p := line 0; Model.s := line (e * 1000) |}, e + 1).

Definition demo_stream : Stream.t Z DemoValue :=
  {| Stream.episode_num_records := 3;
     Stream.train_index := [0; 60; 120];
     Stream.test_index := [86400; 86460; 86520];
     Stream.filename := VNone Z;
     Stream.data := None |}.

(** The base class expects two asset names, gives the first and the last
    of them to [a1_name] and [a2_name], and lets a generator produce new
    data unless it is a top level one. *)
Definition demo_base_init (data_names : list string)
           (process1_config process2_config : DemoValue) (name : string)
           (kwargs : Dict.t DemoValue)
  : M Z (BasePairDataGenerator Z) :=
  fun e =>
    if negb (Nat.eqb (length data_names) 2) then Raise AssertionError
    else
      let top_level :=
        match Dict.get "_top_level" kwargs with
        | Some v => truth demo_truth v
        | None => true
        end in
      let data_class_ref :=
        match Dict.get "data_class_ref" kwargs with
        | Some v => v
        | None => VNone Z
        end in
      Ok ({| data_names := data_names;
             name := name;
             data_class_ref := data_class_ref;
             nested_kwargs :=
               filter (fun kv =>
                         negb (existsb (String.eqb (fst kv))
                                 ["data_class_ref"; "_top_level"]))
                      kwargs;
             a1_name := hd "" data_names;
             a2_name := last data_names "";
             data := map (fun n => (n, demo_stream)) data_names;
             names := ["open"; "high"; "low"; "close"];
             metadata := [("type", VNone Z); ("sample_num", VInt Z 0)];
             filename := map (fun n => (n, VNone Z)) data_names;
             sample_num := 0;
             get_new_sample := negb top_level |}, e).

(** the base class of the data set just keeps its keywords *)
Definition demo_combined_init (kw : Dict.t DemoValue)
  : M Z (Dict.t DemoValue) :=
  fun e => Ok (kw, e).

Definition demo_init :=
  SimpleBivariateGenerator_init demo_exp demo_around tt demo_trajectory
                                demo_random_state demo_base_init.

Definition demo_sample :=
  sample demo_exp demo_around demo_ne_int demo_truth tt demo_trajectory
         demo_random_state demo_base_init.

Definition demo_world : DemoWorld := {| env := 0; log := [] |}.

(** a top level generator over two assets *)
Definition demo_top : result (DemoGenerator * Z) :=
  demo_init ["EURUSD"; "EURGBP"] (VDict []) None None None [] 0.

Definition demo_base (name : string) (metadata : Dict.t DemoValue)
           (sample_num : Z) (get_new_sample : bool)
           (data1 data2 : option (pd.DataFrame Z))
  : BasePairDataGenerator Z :=
  {| data_names := ["EURUSD"; "EURGBP"];
     name := name;
     data_class_ref := VNone Z;
     nested_kwargs := [];
     a1_name := "EURUSD";
     a2_name := "EURGBP";
     data := [("EURUSD", Stream.set_data demo_stream data1);
              ("EURGBP", Stream.set_data demo_stream data2)];
     names := ["open"; "high"; "low"; "close"];
     metadata := metadata;
     filename := [("EURUSD", VNone Z); ("EURGBP", VNone Z)];
     sample_num := sample_num;
     get_new_sample := get_new_sample |}.

Definition demo_object (b : BasePairDataGenerator Z) : DemoGenerator :=
  {| super := b;
     generator_fn :=
       @Fn Z _ (bivariate_generator_fn_kw demo_around tt demo_trajectory);
     generator_parameters_fn :=
       @Fn Z _ (bivariate_random_state_fn_kw demo_exp demo_random_state);
     generator_parameters_config := VDict [];
     columns_map := [("open", "mean"); ("high", "maximum"); ("low", "minimum");
                     ("close", "last"); ("bid", "minimum");
                     ("ask", "maximum"); ("mid", "mean")] |}.

(** the top level generator, which does not produce data itself *)
Definition demo_generator : DemoGenerator :=
  demo_object
    (demo_base "BivariateGenerator"
               [("type", VNone Z); ("sample_num", VInt Z 0)] 0 false
               None None).

(** its first sample, a generator of train data *)
Definition demo_trial : DemoGenerator :=
  demo_object
    (demo_base "sub_BivariateGenerator"
               [("type", VInt Z 0); ("sample_num", VInt Z 0);
                ("parent_sample_type", VNone Z);
                ("parent_sample_num", VInt Z 0);
                ("first_row", VInt Z 0); ("last_row", VInt Z 3)]
               0 true None None).

Definition demo_state : Model.BivariateTSModelState Z :=
  let line :=
    {| Model.process :=
         {| Model.observation :=
              {| Model.mu := 0;
                 Model.log_theta := 0;
                 Model.log_sigma := 50000000 |} |} |} in
  {| Model.p := line; Model.s := line |}.

Definition demo_assets : DemoValue :=
  VDict [("EURUSD", VStr Z "eurusd.csv"); ("EURGBP", VStr Z "eurgbp.csv")].

Definition demo_params : DemoValue := VDict [("state", VState demo_state)].

Definition demo_frame (start : Z) (index : Index) : pd.DataFrame Z :=
  let row := [start; start + 2469100; start + 4938300] in
  {| pd.columns := [("open", row); ("high", row); ("low", row);
                    ("close", row)];
     pd.index := index |}.

(** what [bivariate_random_state_fn] returns on the first draw *)
Definition demo_drawn : DemoValue :=
  VDict [("state", VState demo_state);
         ("ou_mu", VFloat 0);
         ("ou_lambda", VFloat 100000000);
         ("ou_sigma", VFloat 162500000);
         ("x0", VFloat 0)].

(** the sample of the train generator: an episode with generated data *)
Definition demo_episode : DemoGenerator :=
  demo_object
    (demo_base "sub_sub_BivariateGenerator"
               [("generator", demo_drawn);
                ("type", VInt Z 0); ("sample_num", VInt Z 0);
                ("parent_sample_type", VInt Z 0);
                ("parent_sample_num", VInt Z 0);
                ("first_row", VInt Z 0); ("last_row", VInt Z 3)]
               0 true
               (Some (demo_frame 100000000 [0; 60; 120]))
               (Some (demo_frame 200000000 [0; 60; 120]))).

Definition demo_warning : LogRecord Z :=
  {| levelname := "WARNING";
     msg := "Attempt to sample type {} given current sample type {}, overriden.";
     args := [VInt Z 1; VInt Z 0] |}.

(** the world after test data were asked of the train generator: two
    draws were made and the override was logged *)
Definition demo_world_after : DemoWorld :=
  {| env := 2; log := [demo_warning] |}.

Definition demo_train_frames : pd.DataFrame Z * pd.DataFrame Z :=
  (demo_frame 100000000 [0; 60; 120], demo_frame 200000000 [0; 60; 120]).


Definition demo_model_params : DemoValue :=
  VDict [("ou_mu", VFloat 0); ("ou_lambda", VFloat 100000000)].

(** the keywords a data set over [demo_assets] hands to its base class *)
Definition demo_dataset_keywords : Dict.t DemoValue :=
  [("train_data_config",
    VDict [("data_names", VList [VStr Z "EURUSD"; VStr Z "EURGBP"]);
           ("generator_parameters_config", demo_model_params);
           ("episode_duration", VNone Z)]);
   ("test_data_config",
    VDict [("data_class_ref", VClass Z cls_BTgymDataset2);
           ("data_config",
            VDict [("EURUSD", VDict [("filename", VStr Z "eurusd.csv")]);
                   ("EURGBP", VDict [("filename", VStr Z "eurgbp.csv")])]);
           ("episode_duration", VNone Z)]);
   ("train_class_ref", VClass Z cls_SimpleBivariateGenerator);
   ("test_class_ref", VClass Z cls_BTgymMultiData);
   ("name", VStr Z "BivariateDataSet")].

Definition demo_three_assets : DemoValue :=
  VDict [("EURUSD", VStr Z "eurusd.csv"); ("EURGBP", VStr Z "eurgbp.csv");
         ("EURJPY", VStr Z "eurjpy.csv")].

(** the generated array of the first episode *)
Definition demo_array : ndarray3 Z :=
  [[[100000000; 102469100; 104938300];
    [200000000; 202469100; 204938300]]].

(** the train generator asked for a ['volume'] column *)
Definition demo_volume : DemoGenerator :=
  set_names demo_trial ["open"; "volume"; "close"].

(** the train generator with a name given twice *)
Definition demo_repeated : DemoGenerator :=
  set_names demo_trial ["close"; "open"; "close"].

Definition demo_frame_of (names : list string) (row : list Z)
           (index : Index) : pd.DataFrame Z :=
  {| pd.columns := map (fun n => (n, row)) names; pd.index := index |}.

(** a generator function that returns a single series *)
Definition demo_one_series : GenFn Z Z :=
  fun kw e => Ok ([[[1; 2; 3]]], e).

(** a generator function that returns two fixed series, and a parameter
    function that draws nothing *)
Definition demo_two_series : GenFn Z Z :=
  fun kw e => Ok ([[[1; 2; 3]; [4; 5; 6]]], e).

Definition demo_no_params : ParamFn Z Z :=
  fun kw e => Ok (VDict [], e).

Definition demo_with_callables (g : GenFn Z Z) (p : ParamFn Z Z)
  : DemoGenerator :=
  {| super := super demo_trial;
     generator_fn := @Fn Z _ g;
     generator_parameters_fn := @Fn Z _ p;
     generator_parameters_config := VDict [];
     columns_map := columns_map demo_trial |}.

Definition demo_short : DemoGenerator :=
  demo_with_callables demo_one_series demo_no_params.

Definition demo_custom : DemoGenerator :=
  demo_with_callables demo_two_series demo_no_params.

(** the sample of [demo_custom]: its callables are the defaults again *)
Definition demo_custom_episode : DemoGenerator :=
  demo_object
    (demo_base "sub_sub_BivariateGenerator"
               [("generator", VDict []);
                ("type", VInt Z 0); ("sample_num", VInt Z 0);
                ("parent_sample_type", VInt Z 0);
                ("parent_sample_num", VInt Z 0);
                ("first_row", VInt Z 0); ("last_row", VInt Z 3)]
               0 true
               (Some (demo_frame_of ["open"; "high"; "low"; "close"]
                                    [1; 2; 3] [0; 60; 120]))
               (Some (demo_frame_of ["open"; "high"; "low"; "close"]
                                    [4; 5; 6] [0; 60; 120]))).

Definition demo_extra_kwargs : Dict.t DemoValue :=
  [("task", VInt Z 1); ("log_level", VStr Z "INFO")].

(** the second sample of the top level generator *)
Definition demo_second_trial : DemoGenerator :=
  demo_object
    (demo_base "sub_BivariateGenerator"
               [("type", VInt Z 0); ("sample_num", VInt Z 1);
                ("parent_sample_type", VNone Z);
                ("parent_sample_num", VInt Z 1);
                ("first_row", VInt Z 0); ("last_row", VInt Z 3)]
               0 true None None).



Definition demo_with_kwargs (g : DemoGenerator) (kw : Dict.t DemoValue)
  : DemoGenerator :=
  let b := super g in
  with_super g
    {| data_names := data_names b; name := name b;
       data_class_ref := data_class_ref b;
       nested_kwargs := kw;
       a1_name := a1_name b; a2_name := a2_name b; data := data b;
       names := names b; metadata := metadata b; filename := filename b;
       sample_num := sample_num b; get_new_sample := get_new_sample b |}.




(** *** The run *)

(** The constructor builds the top level generator. *)
Example demo_generator_built :
  demo_top = Ok (demo_generator, 0).
Proof. reflexivity. Qed.

(** Sampling the top level generator gives the train generator and draws
    nothing. *)
Example demo_trial_sampled :
  demo_sample demo_generator 0 (VNone Z) [] demo_world
  = Ok ((demo_trial, set_sample_num demo_generator 1), demo_world).
Proof. reflexivity. Qed.

(** The stand-in for rounding, at six places. *)
Example demo_rounding :
  demo_around 102469134 6 = 102469100 /\ demo_around 102469150 6 = 102469200.
Proof. split; reflexivity. Qed.

(** Asking the train generator for test data gives an episode of train
    data after two draws, and logs the override. *)
Example demo_episode_sampled :
  demo_sample demo_trial 1 (VNone Z) [] demo_world
  = Ok ((demo_episode, set_sample_num demo_trial 1), demo_world_after).
Proof. reflexivity. Qed.

(** A keyword given twice stops the constructor, and with it [sample] on
    a generator that holds such a keyword for the base class. *)
Example demo_keyword_twice :
  demo_init ["EURUSD"; "EURGBP"] (VDict []) None None None
            [("process1_config", VNone Z)] 0 = Raise TypeError /\
  demo_sample (demo_with_kwargs demo_trial [("process2_config", VNone Z)])
              0 (VNone Z) [] demo_world = Raise TypeError.
Proof. split; reflexivity. Qed.

(** A dataframe repeats a column of one element over its index, and
    refuses a column of another length. *)
Example demo_dataframe :
  pd.DataFrame_init [("open", [7]); ("close", [1; 2; 3])] [0; 60; 120]
  = Ok {| pd.columns := [("open", [7; 7; 7]); ("close", [1; 2; 3])];
          pd.index := [0; 60; 120] |} /\
  pd.DataFrame_init [("open", [1; 2])] [0; 60; 120] = Raise ValueError.
Proof. split; reflexivity. Qed.

(** *** The theorems at the concrete run *)

(** C1 on the train generator, whose [get_new_sample] flag is set, and on
    the top level generator, whose flag is not. *)
Lemma sample_draws_when_new_sample_witness :
  (get_new_sample (super demo_trial) = true /\
   demo_sample demo_trial 1 (VNone Z) [] demo_world
   = Ok ((demo_episode, set_sample_num demo_trial 1), demo_world_after) /\
   draws_and_wraps demo_exp demo_around demo_truth tt demo_trajectory
                   demo_random_state demo_base_init
                   demo_trial demo_world demo_episode demo_world_after) /\
  (get_new_sample (super demo_generator) = false /\
   demo_sample demo_generator 0 (VNone Z) [] demo_world
   = Ok ((demo_trial, set_sample_num demo_generator 1), demo_world) /\
   (exists smp0,
       sample_instance demo_exp demo_around tt demo_trajectory
                       demo_random_state demo_base_init demo_generator
                       (env demo_world)
       = Ok (smp0, env demo_world)) /\
   (exists stream,
       Dict.get "EURUSD" (data (super demo_trial)) = Some stream /\
       Stream.data stream = None) /\
   (exists stream,
       Dict.get "EURGBP" (data (super demo_trial)) = Some stream /\
       Stream.data stream = None) /\
   Dict.get "generator" (metadata (super demo_trial)) = None).
Proof.
  split.
  - split; [reflexivity|]. split; [reflexivity|].
    apply (proj1 (@sample_draws_when_new_sample
                    Z demo_exp demo_around demo_ne_int demo_truth Z unit tt
                    demo_trajectory demo_random_state demo_base_init
                    demo_trial demo_episode (set_sample_num demo_trial 1)
                    1 (VNone Z) [] demo_world demo_world_after eq_refl)).
    reflexivity.
  - split; [reflexivity|]. split; [reflexivity|].
    apply (proj2 (@sample_draws_when_new_sample
                    Z demo_exp demo_around demo_ne_int demo_truth Z unit tt
                    demo_trajectory demo_random_state demo_base_init
                    demo_generator demo_trial
                    (set_sample_num demo_generator 1)
                    0 (VNone Z) [] demo_world demo_world eq_refl)).
    reflexivity.
Defined.

(** C1 as stated fails on the top level generator: its [get_new_sample]
    flag is off, [sample] returns an instance whose streams hold no data,
    and nothing was drawn or generated. *)
Lemma sample_top_level_counterexample :
  get_new_sample (super demo_generator) = false /\
  demo_sample demo_generator 0 (VNone Z) [] demo_world
  = Ok ((demo_trial, set_sample_num demo_generator 1), demo_world) /\
  Dict.get "EURGBP" (data (super demo_trial)) = Some demo_stream /\
  Stream.data demo_stream = None /\
  Dict.get "generator" (metadata (super demo_trial)) = None /\
  ~ draws_and_wraps demo_exp demo_around demo_truth tt demo_trajectory
                    demo_random_state demo_base_init
                    demo_generator demo_world demo_trial demo_world.
Proof.
  split; [reflexivity|]. split; [reflexivity|]. split; [reflexivity|].
  split; [reflexivity|]. split; [reflexivity|].
  intros (smp0 & e1 & config & params & e2 & st & df1 & df2 & H).
  destruct H as (_ & _ & _ & _ & _ & _ & _ & _ & (stream & Hget & Hdata) & _).
  change (Some demo_stream = Some stream) in Hget.
  inversion Hget. subst stream. discriminate Hdata.
Qed.

(** C2 on the train generator: the run returns, and its two dataframes are
    the two rows of the generated array. *)
Lemma generate_data_pair_witness :
  (exists df1 df2,
      generate_data demo_truth demo_trial demo_params (VInt Z 0) 1
      = Ok ((df1, df2), 2)) /\
  generate_data demo_truth demo_trial demo_params (VInt Z 0) 1
  = Ok (demo_train_frames, 2) /\
  exists a1 x row0 row1,
    Dict.get "EURUSD" (data (super demo_trial)) = Some a1 /\
    call (generator_fn demo_trial)
         [("num_points", VInt Z (Stream.episode_num_records a1));
          ("state", VState demo_state)] 1 = Ok (x, 2) /\
    x = [[row0; row1]] /\
    length row0 = 3%nat /\
    length row1 = 3%nat /\
    Forall (fun kv => snd kv = row0) (pd.columns (fst demo_train_frames)) /\
    Forall (fun kv => snd kv = row1) (pd.columns (snd demo_train_frames)).
Proof.
  split.
  - apply (proj1 (@generate_data_pair Z demo_truth Z demo_trial)
             [("state", VState demo_state)] (VInt Z 0) 1 2 demo_stream
             [[[100000000; 102469100; 104938300];
               [200000000; 202469100; 204938300]]] 3%nat).
    + reflexivity.
    + reflexivity.
    + reflexivity.
    + repeat constructor.
    + intros name [<-|[<-|[<-|[<-|[]]]]]; eexists;
        (split; [reflexivity|simpl; auto]).
    + reflexivity.
  - split; [reflexivity|].
    destruct (proj2 (@generate_data_pair Z demo_truth Z demo_trial)
                demo_params (VInt Z 0) 1 2
                (fst demo_train_frames) (snd demo_train_frames) eq_refl)
      as (a1 & params & x & row0 & row1 & Ha1 & Hp & Hcall & _ & _
          & _ & _ & Hc1 & Hc2 & _ & _ & Hshape).
    inversion Hp. subst params.
    assert (Ha : a1 = demo_stream)
      by (change (Some demo_stream = Some a1) in Ha1; congruence).
    assert (Hx : x = demo_array).
    { rewrite Ha in Hcall.
      change (Ok (demo_array, 2) = Ok (x, 2)) in Hcall. congruence. }
    destruct (Hshape 3%nat) as (Hrows & Hl0 & Hl1);
      [rewrite Hx; repeat constructor|].
    exists a1, x, row0, row1.
    split; [exact Ha1|]. split; [exact Hcall|]. split; [exact Hrows|].
    split; [exact Hl0|]. split; [exact Hl1|].
    split; [apply Hc1|apply Hc2]; right; assumption.
Defined.



(** C8 on the concrete run: the map of the constructed generator, and
    equal ['open'] and ['close'] columns. *)
Lemma columns_identical_witness :
  demo_top = Ok (demo_generator, 0) /\
  Dict.get "bid" (columns_map demo_generator) = Some "minimum" /\
  generate_data demo_truth demo_trial demo_params (VInt Z 0) 1
  = Ok (demo_train_frames, 2) /\
  exists o c,
    Dict.get "open" (pd.columns (fst demo_train_frames)) = Some o /\
    Dict.get "close" (pd.columns (fst demo_train_frames)) = Some c /\
    o = c.
Proof.
  pose proof (@columns_identical Z demo_exp demo_around demo_truth Z unit tt
                demo_trajectory demo_random_state demo_base_init)
    as [Hmap Hcols].
  split; [reflexivity|]. split.
  - eapply (Hmap ["EURUSD"; "EURGBP"] (VDict []) None None None [] 0
                 demo_generator 0 eq_refl).
  - split; [reflexivity|].
    destruct (Hcols demo_trial demo_params (VInt Z 0) 1 2
                (fst demo_train_frames) (snd demo_train_frames) eq_refl
                (fst demo_train_frames) (or_introl eq_refl)) as [Hany _].
    exists [100000000; 102469100; 104938300].
    exists [100000000; 102469100; 104938300].
    split; [reflexivity|]. split; [reflexivity|].
    exact (Hany "open" "close" _ _ eq_refl eq_refl).
Defined.

(** C9 on the train generator, of type 0, asked for type 1. *)
Lemma sample_type_override_witness :
  Dict.get "type" (metadata (super demo_trial)) = Some (VInt Z 0) /\
  VInt Z 0 <> VNone Z /\
  demo_sample demo_trial 1 (VNone Z) [] demo_world
  = Ok ((demo_episode, set_sample_num demo_trial 1), demo_world_after) /\
  Dict.get "type" (metadata (super demo_episode)) = Some (VInt Z 0) /\
  log demo_world_after = (log demo_world ++ [demo_warning])%list.
Proof.
  assert (Hset : VInt Z 0 <> VNone Z) by discriminate.
  split; [reflexivity|]. split; [exact Hset|]. split; [reflexivity|].
  destruct (@sample_type_override
              Z demo_exp demo_around demo_ne_int demo_truth Z unit tt
              demo_trajectory demo_random_state demo_base_init
              demo_trial demo_episode (set_sample_num demo_trial 1)
              1 (VNone Z) [] demo_world demo_world_after (VInt Z 0)
              eq_refl Hset eq_refl)
    as (recorded & Hrec & _ & Hint & Hne & _).
  rewrite (Hint 0 eq_refl) in Hrec.
  split; [exact Hrec|]. exact (proj2 (Hne eq_refl)).
Defined.

(** C10 on the train generator. *)
Lemma sample_increments_sample_num_witness :
  demo_sample demo_trial 1 (VNone Z) [] demo_world
  = Ok ((demo_episode, set_sample_num demo_trial 1), demo_world_after) /\
  sample_num (super (set_sample_num demo_trial 1))
  = sample_num (super demo_trial) + 1 /\
  Dict.get "last_row" (metadata (super demo_episode)) = Some (VInt Z 3).
Proof.
  split; [reflexivity|].
  destruct (@sample_increments_sample_num
              Z demo_exp demo_around demo_ne_int demo_truth Z unit tt
              demo_trajectory demo_random_state demo_base_init
              demo_trial demo_episode (set_sample_num demo_trial 1)
              1 (VNone Z) [] demo_world demo_world_after eq_refl)
    as (Hnum & _ & a1 & Ha1 & _ & _ & _ & Hlast).
  split; [exact Hnum|].
  inversion Ha1. subst a1. exact Hlast.
Defined.

(** C3 on a data set over two assets. *)
Lemma BivariateDataSet_init_configures_witness :
  BivariateDataSet_init demo_combined_init demo_assets demo_model_params
                        (VNone Z) (VNone Z) None [] 0
  = Ok (demo_dataset_keywords, 0) /\
  exists kw train,
    demo_combined_init kw 0 = Ok (demo_dataset_keywords, 0) /\
    Dict.get "train_class_ref" kw
    = Some (VClass Z cls_SimpleBivariateGenerator) /\
    Dict.get "test_class_ref" kw = Some (VClass Z cls_BTgymMultiData) /\
    Dict.get "train_data_config" kw = Some (VDict train) /\
    Dict.get "generator_parameters_config" train = Some demo_model_params.
Proof.
  split; [reflexivity|].
  destruct (@BivariateDataSet_init_configures
              Z demo_exp demo_around Z unit tt demo_trajectory
              demo_random_state demo_base_init (Dict.t DemoValue)
              demo_combined_init demo_assets demo_model_params
              (VNone Z) (VNone Z) None [] 0 0 demo_dataset_keywords eq_refl)
    as (assets & kw & train & test & config & _ & _ & Hbase & Htrain_class
        & Htrain & _ & Hconfig & _ & Htest_class & _).
  exists kw, train. repeat (split; [assumption|]). assumption.
Defined.

(** C4 on three assets: the constructor raises [AssertionError]. *)
Lemma BivariateDataSet_init_assertion_witness :
  (forall kw e0, demo_combined_init kw e0 <> Raise AssertionError) /\
  BivariateDataSet_init demo_combined_init demo_three_assets demo_model_params
                        (VNone Z) (VNone Z) None [] 0
  = Raise AssertionError /\
  (isinstance_dict demo_three_assets = false \/
   exists assets,
     demo_three_assets = VDict assets /\ length (Dict.keys assets) <> 2%nat).
Proof.
  assert (Hbase : forall kw e0,
             demo_combined_init kw e0 <> Raise AssertionError)
    by (intros kw e0; discriminate).
  split; [exact Hbase|]. split; [reflexivity|].
  exact (proj2 (proj2 (@BivariateDataSet_init_assertion
                         Z Z (Dict.t DemoValue) demo_combined_init
                         demo_three_assets demo_model_params
                         (VNone Z) (VNone Z) None [] 0))
               Hbase eq_refl).
Defined.

(** C6 on the first draw. *)
Lemma bivariate_random_state_fn_fields_witness :
  exists d,
    bivariate_random_state_fn demo_exp demo_random_state [] [] 0
    = Ok (VDict d, 1) /\
    Dict.get "state" d = Some (VState demo_state) /\
    Dict.get "ou_lambda" d = Some (VFloat 100000000) /\
    Dict.get "ou_sigma" d = Some (VFloat 162500000).
Proof.
  destruct (@bivariate_random_state_fn_fields
              Z demo_exp Z demo_random_state [] [] 0)
    as (d & Hrun & _ & Hstate & _ & _ & Hlambda & Hsigma).
  exists d. repeat (split; [assumption|]). assumption.
Defined.

(** C7 on three points, [keep_decimals] left out. *)
Lemma bivariate_generator_fn_rounds_witness :
  exists y,
    bivariate_generator_fn demo_around tt demo_trajectory 3 demo_state None []
                           1
    = Ok (y, 2) /\
    item y 0 0 1 = Some 102469100 /\
    item y 0 1 2 = Some 204938300 /\
    has_shape y 1 2 3.
Proof.
  destruct (@bivariate_generator_fn_rounds
              Z demo_around Z unit tt demo_trajectory 3 demo_state None [] 1)
    as (y & Hrun & Hitem & _ & Hshape).
  exists y. split; [exact Hrun|].
  split; [rewrite Hitem; reflexivity|].
  split; [rewrite Hitem; reflexivity|].
  apply Hshape. repeat constructor.
Defined.

(** *** The further properties at the concrete run *)

(** X1: a ['volume'] column is a [KeyError]. *)
Lemma generate_data_unmapped_name_witness :
  names (super demo_volume) = ["open"; "volume"; "close"] /\
  Dict.get "volume" (columns_map demo_volume) = None /\
  generate_data demo_truth demo_volume demo_params (VInt Z 0) 1
  = Raise (KeyError "volume").
Proof.
  split; [reflexivity|]. split; [reflexivity|].
  apply (@generate_data_unmapped_name
           Z demo_truth Z demo_volume [("state", VState demo_state)]
           (VInt Z 0) 1 2 demo_stream demo_array
           [100000000; 102469100; 104938300]
           [200000000; 202469100; 204938300]
           ["open"] ["close"] "volume").
  - reflexivity.
  - reflexivity.
  - reflexivity.
  - reflexivity.
  - reflexivity.
  - reflexivity.
  - intros n [<-|[]]. exists "mean". split; [reflexivity|simpl; auto].
  - reflexivity.
Defined.

(** X2: a generator that returns one series is an [IndexError]. *)
Lemma generate_data_short_output_witness :
  has_shape (float:=Z) [[[1; 2; 3]]] 1 1 3 /\
  generate_data demo_truth demo_short demo_params (VInt Z 0) 1
  = Raise IndexError.
Proof.
  assert (Hshape : has_shape (float:=Z) [[[1; 2; 3]]] 1 1 3)
    by (repeat constructor).
  split; [exact Hshape|].
  apply (@generate_data_short_output
           Z demo_truth Z demo_short [("state", VState demo_state)]
           (VInt Z 0) 1 1 demo_stream [[[1; 2; 3]]] 1 1 3).
  - reflexivity.
  - reflexivity.
  - reflexivity.
  - exact Hshape.
  - right. lia.
Defined.

(** X3: a name given twice gives one column, at its first place. *)
Lemma generate_data_columns_witness :
  generate_data demo_truth demo_repeated demo_params (VInt Z 0) 1
  = Ok ((demo_frame_of ["close"; "open"]
                       [100000000; 102469100; 104938300] [0; 60; 120],
         demo_frame_of ["close"; "open"]
                       [200000000; 202469100; 204938300] [0; 60; 120]), 2) /\
  NoDup ["close"; "open"] /\
  NoDup (names (super demo_trial)) /\
  Dict.keys (pd.columns (fst demo_train_frames)) = names (super demo_trial).
Proof.
  split; [reflexivity|].
  destruct (@generate_data_columns
              Z demo_truth Z demo_repeated demo_params (VInt Z 0) 1 2
              _ _ eq_refl) as (_ & Hnodup & _).
  split; [exact Hnodup|].
  assert (Hnames : NoDup (names (super demo_trial))).
  { repeat constructor; simpl; intuition discriminate. }
  split; [exact Hnames|].
  destruct (@generate_data_columns
              Z demo_truth Z demo_trial demo_params (VInt Z 0) 1 2
              (fst demo_train_frames) (snd demo_train_frames) eq_refl)
    as (_ & _ & Hkeys).
  exact (Hkeys Hnames).
Defined.

(** X4: the first draw, fed to the generator function for three points. *)
Lemma default_generator_pipeline_witness :
  demo_random_state [] [] 0 = Ok (demo_state, 1) /\
  exists params,
    bivariate_random_state_fn_kw demo_exp demo_random_state [] 0
    = Ok (VDict params, 1) /\
    bivariate_generator_fn_kw demo_around tt demo_trajectory
                              (("num_points", VInt Z 3) :: params) 1
    = Ok (demo_array, 2).
Proof.
  split; [reflexivity|].
  destruct (@default_generator_pipeline
              Z demo_exp demo_around Z unit tt demo_trajectory
              demo_random_state [] 0 1 demo_state eq_refl)
    as (params & Hrun & _ & Hcall).
  exists params. split; [exact Hrun|].
  rewrite (Hcall 3). reflexivity.
Defined.

(** X5: sampling the top level generator runs the constructor alone. *)
Lemma sample_without_new_sample_witness :
  get_new_sample (super demo_generator) = false /\
  demo_sample demo_generator 0 (VNone Z) [] demo_world
  = Ok ((demo_trial, set_sample_num demo_generator 1), demo_world) /\
  (exists stream,
      Dict.get "EURUSD" (data (super demo_trial)) = Some stream /\
      Stream.data stream = None) /\
  Dict.get "generator" (metadata (super demo_trial)) = None.
Proof.
  split; [reflexivity|]. split; [reflexivity|].
  destruct (@sample_without_new_sample
              Z demo_exp demo_around demo_ne_int demo_truth Z unit tt
              demo_trajectory demo_random_state demo_base_init
              demo_generator demo_trial (set_sample_num demo_generator 1)
              0 (VNone Z) [] demo_world demo_world eq_refl eq_refl)
    as (_ & Hs1 & _ & _ & Hgen).
  split; [exact Hs1|exact Hgen].
Defined.

(** X6: the top level generator has no type; its sample takes the
    requested one and nothing is logged. *)
Lemma sample_type_unset_witness :
  Dict.get "type" (metadata (super demo_generator)) = Some (VNone Z) /\
  demo_sample demo_generator 0 (VNone Z) [] demo_world
  = Ok ((demo_trial, set_sample_num demo_generator 1), demo_world) /\
  Dict.get "type" (metadata (super demo_trial)) = Some (VInt Z 0) /\
  log demo_world = [].
Proof.
  split; [reflexivity|]. split; [reflexivity|].
  destruct (@sample_type_unset
              Z demo_exp demo_around demo_ne_int demo_truth Z unit tt
              demo_trajectory demo_random_state demo_base_init
              demo_generator demo_trial (set_sample_num demo_generator 1)
              0 (VNone Z) [] demo_world demo_world eq_refl eq_refl)
    as (Hty & _ & Hlog & _).
  split; [exact Hty|exact Hlog].
Defined.

(** X7: a generator with callables of its own gives a sample with the
    default ones. *)
Lemma sample_default_callables_witness :
  generator_fn demo_custom = @Fn Z _ demo_two_series /\
  demo_sample demo_custom 0 (VNone Z) [] demo_world
  = Ok ((demo_custom_episode, set_sample_num demo_custom 1), demo_world) /\
  generator_fn demo_custom_episode
  = @Fn Z _ (bivariate_generator_fn_kw demo_around tt demo_trajectory) /\
  generator_parameters_fn demo_custom_episode
  = @Fn Z _ (bivariate_random_state_fn_kw demo_exp demo_random_state).
Proof.
  split; [reflexivity|]. split; [reflexivity|].
  destruct (@sample_default_callables
              Z demo_exp demo_around demo_ne_int demo_truth Z unit tt
              demo_trajectory demo_random_state demo_base_init
              demo_custom demo_custom_episode (set_sample_num demo_custom 1)
              0 (VNone Z) [] demo_world demo_world eq_refl eq_refl eq_refl)
    as (Hg & Hp & _).
  split; [exact Hg|exact Hp].
Defined.

(** X8: the episode has the names and the file names of the train
    generator. *)
Lemma sample_names_filename_witness :
  demo_sample demo_trial 1 (VNone Z) [] demo_world
  = Ok ((demo_episode, set_sample_num demo_trial 1), demo_world_after) /\
  names (super demo_episode) = ["open"; "high"; "low"; "close"] /\
  Dict.keys (filename (super demo_episode)) = ["EURUSD"; "EURGBP"].
Proof.
  split; [reflexivity|].
  destruct (@sample_names_filename
              Z demo_exp demo_around demo_ne_int demo_truth Z unit tt
              demo_trajectory demo_random_state demo_base_init
              demo_trial demo_episode (set_sample_num demo_trial 1)
              1 (VNone Z) [] demo_world demo_world_after eq_refl)
    as (Hnames & Hkeys & _).
  split; [exact Hnames|exact Hkeys].
Defined.


(** X10: two samples of the top level generator are numbered 0 and 1. *)
Lemma sample_twice_witness :
  demo_sample demo_generator 0 (VNone Z) [] demo_world
  = Ok ((demo_trial, set_sample_num demo_generator 1), demo_world) /\
  demo_sample (set_sample_num demo_generator 1) 0 (VNone Z) [] demo_world
  = Ok ((demo_second_trial,
         set_sample_num (set_sample_num demo_generator 1) 2), demo_world) /\
  sample_num (super (set_sample_num (set_sample_num demo_generator 1) 2))
  = sample_num (super demo_generator) + 2 /\
  Dict.get "sample_num" (metadata (super demo_second_trial))
  = Some (VInt Z (sample_num (super demo_generator) + 1)).
Proof.
  split; [reflexivity|]. split; [reflexivity|].
  destruct (@sample_twice
              Z demo_exp demo_around demo_ne_int demo_truth Z unit tt
              demo_trajectory demo_random_state demo_base_init
              demo_generator demo_trial (set_sample_num demo_generator 1)
              demo_second_trial
              (set_sample_num (set_sample_num demo_generator 1) 2)
              0 0 (VNone Z) (VNone Z) [] [] demo_world demo_world demo_world
              demo_world eq_refl eq_refl)
    as (Hnum & _ & Hsn2 & _).
  split; [exact Hnum|exact Hsn2].
Defined.

(** X11: the episode sampled from the train generator has its type 0,
    though type 1 was asked for. *)
Lemma sample_of_sample_type_witness :
  Dict.get "type" (metadata (super demo_generator)) = Some (VNone Z) /\
  demo_sample demo_generator 0 (VNone Z) [] demo_world
  = Ok ((demo_trial, set_sample_num demo_generator 1), demo_world) /\
  demo_sample demo_trial 1 (VNone Z) [] demo_world
  = Ok ((demo_episode, set_sample_num demo_trial 1), demo_world_after) /\
  exists t,
    Dict.get "type" (metadata (super demo_trial)) = Some (VInt Z t) /\
    Dict.get "type" (metadata (super demo_episode)) = Some (VInt Z t).
Proof.
  split; [reflexivity|]. split; [reflexivity|]. split; [reflexivity|].
  destruct (@sample_of_sample_type
              Z demo_exp demo_around demo_ne_int demo_truth Z unit tt
              demo_trajectory demo_random_state demo_base_init
              demo_generator demo_trial (set_sample_num demo_generator 1)
              demo_episode (set_sample_num demo_trial 1)
              0 1 (VNone Z) (VNone Z) [] [] demo_world demo_world demo_world
              demo_world_after (or_introl eq_refl) eq_refl eq_refl)
    as (t & Ht1 & Ht2 & _).
  exists t. split; [exact Ht1|exact Ht2].
Defined.

(** X12: further keywords of the data set reach the base class; a second
    ['train_class_ref'] is a [TypeError]. *)
Lemma BivariateDataSet_init_kwargs_witness :
  length (Dict.keys [("EURUSD", VStr Z "eurusd.csv");
                     ("EURGBP", VStr Z "eurgbp.csv")]) = 2%nat /\
  BivariateDataSet_init demo_combined_init demo_assets demo_model_params
    (VNone Z) (VNone Z) None
    [("train_class_ref", VClass Z cls_BTgymMultiData)] 0
  = Raise TypeError /\
  exists kw,
    BivariateDataSet_init demo_combined_init demo_assets demo_model_params
      (VNone Z) (VNone Z) None demo_extra_kwargs 0
    = Ok (kw, 0) /\
    Dict.get "task" kw = Some (VInt Z 1) /\
    Dict.get "name" kw = Some (VStr Z "BivariateDataSet").
Proof.
  split; [reflexivity|]. split.
  - apply (proj1 (@BivariateDataSet_init_kwargs
                    Z Z (Dict.t DemoValue) demo_combined_init
                    [("EURUSD", VStr Z "eurusd.csv");
                     ("EURGBP", VStr Z "eurgbp.csv")]
                    demo_model_params (VNone Z) (VNone Z) None
                    [("train_class_ref", VClass Z cls_BTgymMultiData)] 0
                    eq_refl) "train_class_ref").
    + simpl. auto.
    + reflexivity.
  - destruct (proj2 (@BivariateDataSet_init_kwargs
                       Z Z (Dict.t DemoValue) demo_combined_init
                       [("EURUSD", VStr Z "eurusd.csv");
                        ("EURGBP", VStr Z "eurgbp.csv")]
                       demo_model_params (VNone Z) (VNone Z) None
                       demo_extra_kwargs 0 eq_refl))
      as (kw & Hrun & _ & Hname & Hfwd).
    + intros k [<-|[<-|[<-|[<-|[<-|[]]]]]]; reflexivity.
    + exists kw. split; [exact Hrun|].
      split; [apply Hfwd; reflexivity|exact Hname].
Defined.
